(** * fat-js, FAT-2 transactions and transaction batches

    A shallow embedding of the FAT-2 classes of fat-js, the ones that
    index.js exports as [FAT2]:

    - 2/Transaction.js: the class [Transaction], modelled in the module
      [Transaction];
    - 2/TransactionBuilder.js: [TransactionBuilder];
    - 2/TransactionBatchBuilder.js: [TransactionBatchBuilder];
    - 2/TransactionBatch.js: [TransactionBatch], with its function
      [getMarshalDataSig];

    followed by the properties of the builders, of the signing protocol and
    of the marshal-for-signature function.

    Conventions of the embedding.

    - A JavaScript [throw] is the [Throw] outcome; the message of every
      [Error] is the one of the source.  The engine's own failures
      (reading a property of [undefined], an unbound identifier) are
      [TypeError] and [ReferenceError].
    - Objects that the source shares between a builder and what it builds
      (the input object, the transfers array, the key object, the
      transactions and signatures arrays of a batch) live in a [Store] and
      are referred to by location; every method that writes takes the store
      and returns the new one.  A method that throws has not written to the
      store: in every method of the source the last [throw] precedes the
      first write.
    - A property that may be [undefined] is an [option].
    - The builders are given values of the types their documentation
      names: strings for addresses and asset types, byte sequences for
      signatures.
    - A JavaScript string is the sequence of bytes of its UTF-8 encoding, a
      [Buffer] or [Uint8Array] is a [list byte].
    - Integers (timestamps, array indices) are unbounded; their [toString()]
      is the decimal numeral, as it is in JavaScript below 1e21.
    - The instances are those the constructors make from a builder; the
      other branch of the constructors, which copies a ledger response, is
      not modelled.
    - The libraries the source calls (the factom address utilities,
      tweetnacl, sha512, the [constant] module) are the fields of the class
      [Collaborators]; what the batch constructor calls to serialize
      contents is the class [ContentEncoder]. *)

From Stdlib Require Import ZArith QArith List String Ascii Strings.Byte.
From Stdlib Require Import Decimal DecimalString DecimalZ DecimalPos.
From stdpp Require Import base gmap strings list.


(** ** Outcomes *)

Inductive exn :=
| Error (message : string)
| TypeError (message : string)
| ReferenceError (message : string).

Inductive outcome (A : Type) :=
| Return (a : A)
| Throw (e : exn).
Arguments Return {A} a.
Arguments Throw {A} e.

#[global] Instance outcome_ret : MRet outcome := fun A a => Return a.
#[global] Instance outcome_bind : MBind outcome := fun A B f m =>
  match m with
  | Return a => f a
  | Throw e => Throw e
  end.

Definition returns {A} (m : outcome A) : bool :=
  match m with Return _ => true | Throw _ => false end.

Definition throws {A} (m : outcome A) : bool := negb (returns m).

(** Reading a property of something that may be [undefined]. *)
Definition defined {A} (what : string) (o : option A) : outcome A :=
  match o with
  | Some a => Return a
  | None => Throw (TypeError ("Cannot read property of undefined: " +:+ what))
  end.

(** ** Buffers and strings *)

Abbreviation bytes := (list byte).

(** [Buffer.from(s)] for a string [s]. *)
Definition Buffer_from (s : string) : bytes := list_byte_of_string s.

Definition hex_value (c : ascii) : option N :=
  let n := N_of_ascii c in
  if ((48 <=? n) && (n <=? 57))%N then Some (n - 48)%N
  else if ((97 <=? n) && (n <=? 102))%N then Some (n - 87)%N
  else if ((65 <=? n) && (n <=? 70))%N then Some (n - 55)%N
  else None.

(** [Buffer.from(s, 'hex')]: two digits a byte, in either case; decoding
    stops at the first pair that is not hexadecimal and drops an odd last
    digit. *)
Fixpoint Buffer_from_hex (s : string) : bytes :=
  match s with
  | String a (String b rest) =>
      match hex_value a, hex_value b with
      | Some h, Some l =>
          byte_of_ascii (ascii_of_N (16 * h + l)) :: Buffer_from_hex rest
      | _, _ => []
      end
  | _ => []
  end.

Definition hex_digit (n : N) : ascii :=
  if (n <? 10)%N then ascii_of_N (48 + n) else ascii_of_N (87 + n).

(** [buf.toString('hex')]. *)
Fixpoint toString_hex (b : bytes) : string :=
  match b with
  | [] => ""
  | x :: rest =>
      let n := N_of_ascii (ascii_of_byte x) in
      String (hex_digit (n / 16)) (String (hex_digit (n mod 16)) (toString_hex rest))
  end.

(** [n.toString()] for an integer [n]. *)
Definition toString (n : Z) : string := NilZero.string_of_int (Z.to_int n).

(** ** BigNumber

    bignumber.js values: NaN, the two infinities, and the finite decimals,
    which are kept as exact rationals. *)

Inductive BigNumber :=
| BNaN
| BInfinity (negative : bool)
| BFinite (q : Q).

Definition BigNumber_of_Z (z : Z) : BigNumber := BFinite (inject_Z z).

Definition isInteger (x : BigNumber) : bool :=
  match x with
  | BFinite q => (Qnum q mod Zpos (Qden q) =? 0)%Z
  | _ => false
  end.

Definition isLessThan (x y : BigNumber) : bool :=
  match x, y with
  | BNaN, _ | _, BNaN => false
  | BFinite a, BFinite b => negb (Qle_bool b a)
  | BFinite _, BInfinity negative => negb negative
  | BInfinity true, BInfinity true => false
  | BInfinity true, _ => true
  | BInfinity false, _ => false
  end.

Definition isEqualTo (x y : BigNumber) : bool :=
  match x, y with
  | BFinite a, BFinite b => Qeq_bool a b
  | BInfinity n, BInfinity m => Bool.eqb n m
  | _, _ => false
  end.

Definition plus (x y : BigNumber) : BigNumber :=
  match x, y with
  | BNaN, _ | _, BNaN => BNaN
  | BFinite a, BFinite b => BFinite (Qplus a b)
  | BInfinity n, BInfinity m => if Bool.eqb n m then BInfinity n else BNaN
  | BInfinity n, BFinite _ | BFinite _, BInfinity n => BInfinity n
  end.

(** The test every amount goes through:
    [!amt.isInteger() || amt.isLessThan(0)]. *)
Definition rejected_amount (amt : BigNumber) : bool :=
  negb (isInteger amt) || isLessThan amt (BigNumber_of_Z 0).

(** ** Objects and the store *)

Abbreviation loc := nat.

(** The input object [{address, amount, type}]. *)
Record Input := {
  in_address : string;
  in_amount : BigNumber;
  in_type : option string
}.

(** An element [{address, amount}] of the transfers array. *)
Record Transfer := {
  tr_address : string;
  tr_amount : BigNumber
}.

(** The key object: [{}], a tweetnacl key pair [{publicKey, secretKey}],
    or [{pubaddr, publicKey}]. *)
Record Key := {
  k_pubaddr : option string;
  k_publicKey : option bytes;
  k_secretKey : option bytes
}.

(** The metadata is an arbitrary value; all the source does with it is
    [JSON.stringify], which gives a text or throws. *)
Inductive JsValue :=
| Stringifies (json : string)
| NotStringifiable.

(** A [Transaction] instance built from a builder.  [_timestamp] is set
    only for an instance made from a ledger response, and no constructor
    sets [_signature]; both are read by [new TransactionBuilder(t)]. *)
Record Transaction := {
  t_input : loc;
  t_conversion : option string;
  t_transfers : option loc;
  t_metadata : option JsValue;
  t_key : loc;
  t_rcd : option bytes;
  t_timestamp : option Z;
  t_signature : option (list bytes)
}.

Record TransactionBuilder := {
  b_tokenChainId : string;
  b_key : loc;
  b_signature : option (list bytes);
  b_input : loc;
  b_transfers : option loc;
  b_conversion : option string;
  b_timestamp : option Z;
  b_metadata : option JsValue
}.

Record Store := {
  inputs : gmap loc Input;
  transfer_arrays : gmap loc (list Transfer);
  keys : gmap loc Key;
  transaction_arrays : gmap loc (list (option Transaction));
  signature_arrays : gmap loc (list (option bytes))
}.

Definition empty_store : Store :=
  {| inputs := ∅; transfer_arrays := ∅; keys := ∅;
     transaction_arrays := ∅; signature_arrays := ∅ |}.

(** A location no object of the map lives at. *)
Definition new_loc {A} (m : gmap loc A) : loc := fresh (dom m).

Definition set_inputs (σ : Store) (m : gmap loc Input) : Store :=
  {| inputs := m; transfer_arrays := transfer_arrays σ; keys := keys σ;
     transaction_arrays := transaction_arrays σ;
     signature_arrays := signature_arrays σ |}.

Definition set_transfer_arrays (σ : Store) (m : gmap loc (list Transfer)) : Store :=
  {| inputs := inputs σ; transfer_arrays := m; keys := keys σ;
     transaction_arrays := transaction_arrays σ;
     signature_arrays := signature_arrays σ |}.

Definition set_keys (σ : Store) (m : gmap loc Key) : Store :=
  {| inputs := inputs σ; transfer_arrays := transfer_arrays σ; keys := m;
     transaction_arrays := transaction_arrays σ;
     signature_arrays := signature_arrays σ |}.

Definition set_transaction_arrays (σ : Store)
    (m : gmap loc (list (option Transaction))) : Store :=
  {| inputs := inputs σ; transfer_arrays := transfer_arrays σ; keys := keys σ;
     transaction_arrays := m; signature_arrays := signature_arrays σ |}.

Definition set_signature_arrays (σ : Store)
    (m : gmap loc (list (option bytes))) : Store :=
  {| inputs := inputs σ; transfer_arrays := transfer_arrays σ; keys := keys σ;
     transaction_arrays := transaction_arrays σ; signature_arrays := m |}.

(** ** The libraries the source calls *)

(** The two functions that the source applies to a key or a signature as
    the caller gave it, [keyToPublicFctAddress] and [detached_verify], may
    throw (on an argument of the wrong size); the others are applied to
    what the source has validated or made itself. *)
Class Collaborators := {
  (** factom/src/addresses *)
  isValidPrivateAddress : string -> bool;
  isValidPublicFctAddress : string -> bool;
  getPublicAddress : string -> string;
  addressToKey : string -> bytes;
  keyToPublicFctAddress : bytes -> outcome string;
  (** tweetnacl: [sign.keyPair.fromSeed] gives [(publicKey, secretKey)];
      [sign.detached(msg, secretKey)]; [sign.detached.verify(msg, sig,
      publicKey)]. *)
  keyPair_fromSeed : bytes -> bytes * bytes;
  detached : bytes -> bytes -> bytes;
  detached_verify : bytes -> bytes -> bytes -> outcome bool;
  (** factom/src/util *)
  sha512 : bytes -> bytes;
  (** ../constant *)
  RCD_TYPE_1 : bytes
}.

(** [builder._transfers], the array: [undefined] when the property is. *)
Definition transfers_of (σ : Store) (b : TransactionBuilder)
    : option (list Transfer) :=
  match b_transfers b with
  | Some arr => transfer_arrays σ !! arr
  | None => None
  end.

(** [if (cond) throw e]. *)
Definition throw_if (cond : bool) (e : exn) : outcome unit :=
  if cond then Throw e else Return tt.

(** ** 2/Transaction.js *)

Module Transaction.
Section Transaction.
Context `{Collaborators}.

(** [constructor(builder)], for [builder instanceof TransactionBuilder].
    [Buffer.from(undefined)] is a [TypeError].  [Object.freeze(this)]
    ends the constructor: the instance is a value. *)
Definition constructor (σ : Store) (builder : TransactionBuilder)
    : outcome Transaction :=
  transfers ← defined "length" (transfers_of σ builder);
  key ← defined "publicKey" (keys σ !! b_key builder);
  publicKey ← match k_publicKey key with
               | Some pk => Return pk
               | None => Throw (TypeError "The first argument must be of type string or an instance of Buffer, ArrayBuffer, or Array or an Array-like Object. Received undefined")
               end;
  Return {| t_input := b_input builder;
            t_conversion := b_conversion builder;
            t_transfers := if (0 <? length transfers)%nat
                           then b_transfers builder else None;
            t_metadata := b_metadata builder;
            t_key := b_key builder;
            t_rcd := Some (RCD_TYPE_1 ++ publicKey);
            t_timestamp := None;
            t_signature := None |}.

Definition getInput (σ : Store) (t : Transaction) : option Input :=
  inputs σ !! t_input t.

Definition getConversion (t : Transaction) : option string :=
  t_conversion t.

Definition getRCD (t : Transaction) : option bytes := t_rcd t.

Definition getTransfers (σ : Store) (t : Transaction)
    : option (list Transfer) :=
  match t_transfers t with
  | Some arr => transfer_arrays σ !! arr
  | None => None
  end.


(** [sign(hashed)]: the signature, or [undefined] without a secret key. *)
Definition sign (σ : Store) (t : Transaction) (hashed : bytes)
    : outcome (option bytes) :=
  key ← defined "secretKey" (keys σ !! t_key t);
  Return (match k_secretKey key with
          | Some secretKey => Some (detached hashed secretKey)
          | None => None
          end).

(** [validateSignature(hashed, signature)];
    [Buffer.from(this._rcd, 1).slice(1)] is the RCD without its first
    byte. *)
Definition validateSignature (t : Transaction) (hashed : bytes)
    (signature : option bytes) : outcome bool :=
  match signature, t_rcd t with
  | Some sig, Some rcd =>
      verified ← detached_verify hashed sig (drop 1 rcd);
      if negb verified then Return false else Return true
  | _, _ => Throw (Error "Transaction not signed")
  end.

End Transaction.
End Transaction.

(** ** 2/TransactionBuilder.js *)

(** What [new TransactionBuilder(t)] is given. *)
Inductive BuilderArgument :=
| FromTransaction (t : Transaction)
| NoArgument
| OtherArgument.

(** The [publicKey] of [pkSignature]: a hex string, or an array or buffer. *)
Inductive PublicKeyArgument :=
| HexKey (hex : string)
| RawKey (raw : bytes).

Module TransactionBuilder.
Section TransactionBuilder.
Context `{Collaborators}.

Definition tokenChainId : string :=
  "cffce0f409ebba4ed236d49d89c70e4bd1f1367d86402a3363366683265a242d".

Definition constructor (σ : Store) (t : BuilderArgument)
    : outcome (Store * TransactionBuilder) :=
  match t with
  | FromTransaction t =>
      Return (σ, {| b_tokenChainId := tokenChainId;
                    b_key := t_key t;
                    b_signature := t_signature t;
                    b_input := t_input t;
                    b_transfers := t_transfers t;
                    b_conversion := t_conversion t;
                    b_timestamp := t_timestamp t;
                    b_metadata := t_metadata t |})
  | NoArgument =>
      let key := new_loc (keys σ) in
      let input := new_loc (inputs σ) in
      let transfers := new_loc (transfer_arrays σ) in
      let σ1 := set_keys σ (<[key := {| k_pubaddr := None;
                                        k_publicKey := None;
                                        k_secretKey := None |}]> (keys σ)) in
      let σ2 := set_inputs σ1
                  (<[input := {| in_address := "";
                                 in_amount := BigNumber_of_Z 0;
                                 in_type := Some "" |}]> (inputs σ1)) in
      let σ3 := set_transfer_arrays σ2
                  (<[transfers := []]> (transfer_arrays σ2)) in
      Return (σ3, {| b_tokenChainId := tokenChainId;
                     b_key := key;
                     b_signature := None;
                     b_input := input;
                     b_transfers := Some transfers;
                     b_conversion := None;
                     b_timestamp := None;
                     b_metadata := None |})
  | OtherArgument =>
      Throw (Error "Constructor expects either a previously assembled unsigned Transaction or no prameter")
  end.

Definition with_key (b : TransactionBuilder) (key : loc) : TransactionBuilder :=
  {| b_tokenChainId := b_tokenChainId b; b_key := key;
     b_signature := b_signature b; b_input := b_input b;
     b_transfers := b_transfers b; b_conversion := b_conversion b;
     b_timestamp := b_timestamp b; b_metadata := b_metadata b |}.

Definition with_signature (b : TransactionBuilder) (s : option (list bytes))
    : TransactionBuilder :=
  {| b_tokenChainId := b_tokenChainId b; b_key := b_key b;
     b_signature := s; b_input := b_input b;
     b_transfers := b_transfers b; b_conversion := b_conversion b;
     b_timestamp := b_timestamp b; b_metadata := b_metadata b |}.

Definition with_conversion (b : TransactionBuilder) (c : option string)
    : TransactionBuilder :=
  {| b_tokenChainId := b_tokenChainId b; b_key := b_key b;
     b_signature := b_signature b; b_input := b_input b;
     b_transfers := b_transfers b; b_conversion := c;
     b_timestamp := b_timestamp b; b_metadata := b_metadata b |}.

Definition with_metadata (b : TransactionBuilder) (m : option JsValue)
    : TransactionBuilder :=
  {| b_tokenChainId := b_tokenChainId b; b_key := b_key b;
     b_signature := b_signature b; b_input := b_input b;
     b_transfers := b_transfers b; b_conversion := b_conversion b;
     b_timestamp := b_timestamp b; b_metadata := m |}.

Definition amount_message : string :=
  "Input amount must be a positive nonzero integer".

(** [input(type_, fs, amount_)]; an amount is given as the value
    [new BigNumber] makes of it.  The first line of the source,
    [this._input.length > 0], compares [undefined] with 0 and is never
    true.  The three writes to [this._input] come after the last throw
    and replace the three properties of the object. *)
Definition input (σ : Store) (b : TransactionBuilder)
    (type_ : option string) (fs : string) (amount_ : option BigNumber)
    : outcome (Store * TransactionBuilder) :=
  let amt := match amount_ with
             | None => BigNumber_of_Z 0
             | Some a => a
             end in
  throw_if (bool_decide (is_Some (b_signature b)))
    (Error "Attempting to add new input to a previously assembled transaction, expecting signatures only");;
  '(key, address) ←
    (if isValidPrivateAddress fs then
       throw_if (rejected_amount amt) (Error amount_message);;
       let '(publicKey, secretKey) := keyPair_fromSeed (addressToKey fs) in
       Return ({| k_pubaddr := None;
                  k_publicKey := Some publicKey;
                  k_secretKey := Some secretKey |},
               getPublicAddress fs)
     else
       let fa := fs in
       throw_if (negb (isValidPublicFctAddress fa))
         (Error "Input address must be either a valid private Factoid address or a Factoid public address");;
       throw_if (rejected_amount amt) (Error amount_message);;
       Return ({| k_pubaddr := Some fa;
                  k_publicKey := None;
                  k_secretKey := None |},
               fa));
  let l := new_loc (keys σ) in
  let σ1 := set_keys σ (<[l := key]> (keys σ)) in
  let σ2 := set_inputs σ1
              (<[b_input b := {| in_address := address;
                                 in_amount := amt;
                                 in_type := type_ |}]> (inputs σ1)) in
  Return (σ2, with_key b l).

(** [transfer(fa, amount)]; [this._transfers.push] on an [undefined]
    [_transfers] is a [TypeError]. *)
Definition transfer (σ : Store) (b : TransactionBuilder)
    (fa : string) (amount : option BigNumber)
    : outcome (Store * TransactionBuilder) :=
  throw_if (bool_decide (is_Some (b_conversion b)))
    (Error "Conversion already specified");;
  let amt := match amount with
             | None => BigNumber_of_Z 0
             | Some a => a
             end in
  throw_if (bool_decide (is_Some (b_signature b)))
    (Error "Attempting to add new output to previously assembled transaction, expecting signature only");;
  throw_if (negb (isValidPublicFctAddress fa))
    (Error "Output address must be a valid public Factoid address");;
  throw_if (rejected_amount amt) (Error amount_message);;
  arr ← defined "push" (b_transfers b);
  transfers ← defined "push" (transfer_arrays σ !! arr);
  Return (set_transfer_arrays σ
            (<[arr := transfers ++ [{| tr_address := fa; tr_amount := amt |}]]>
               (transfer_arrays σ)),
          b).

(** [conversion(convert_to_type_)]. *)
Definition conversion (σ : Store) (b : TransactionBuilder)
    (convert_to_type_ : string) : outcome (Store * TransactionBuilder) :=
  transfers ← defined "length" (transfers_of σ b);
  throw_if (0 <? length transfers)%nat
    (Error "One or more transfer(s) already specified for this transaction");;
  throw_if (bool_decide (is_Some (b_signature b)))
    (Error "Attempting to add new conversion to previously assembled transaction, expecting signature only");;
  Return (σ, with_conversion b (Some convert_to_type_)).

(** [metadata(metadata)]. *)
Definition metadata (σ : Store) (b : TransactionBuilder) (metadata : JsValue)
    : outcome (Store * TransactionBuilder) :=
  throw_if (bool_decide (is_Some (b_signature b)))
    (Error "Attempting to add new metadata to previously assembled transaction, expecting signatures only");;
  match metadata with
  | NotStringifiable =>
      Throw (Error "Transaction metadata bust be a valid JSON object or primitive")
  | Stringifies _ => Return (σ, with_metadata b (Some metadata))
  end.

Definition Buffer_from_key (publicKey : PublicKeyArgument) : bytes :=
  match publicKey with
  | HexKey hex => Buffer_from_hex hex
  | RawKey raw => raw
  end.

(** [pkSignature(publicKey, signature)]. *)
Definition pkSignature (σ : Store) (b : TransactionBuilder)
    (publicKey : PublicKeyArgument) (signature : bytes)
    : outcome (Store * TransactionBuilder) :=
  let pk := Buffer_from_key publicKey in
  fa ← keyToPublicFctAddress pk;
  throw_if (negb (length signature =? 64)%nat)
    (Error "Invalid Signature Length.");;
  input ← defined "address" (inputs σ !! b_input b);
  if String.eqb (in_address input) fa then
    key ← defined "publicKey" (keys σ !! b_key b);
    Return (set_keys σ
              (<[b_key b := {| k_pubaddr := k_pubaddr key;
                               k_publicKey := Some pk;
                               k_secretKey := k_secretKey key |}]> (keys σ)),
            with_signature b (Some [signature]))
  else
    Throw (Error ("Public Key (" +:+ toString_hex pk
                  +:+ ") for provided signature does not match input adderess.")).

(** The loop of [build] over the transfers; every element of the array
    was pushed by [transfer] and has an address and an amount. *)
Fixpoint check_transfers (input_address : string) (transfers : list Transfer)
    (sum : BigNumber) : outcome BigNumber :=
  match transfers with
  | [] => Return sum
  | t :: rest =>
      throw_if (rejected_amount (tr_amount t))
        (Error "transfer amount must be a positive nonzero integer");;
      throw_if (String.eqb input_address (tr_address t))
        (Error "input cannot be the same as the transfer address");;
      check_transfers input_address rest (plus sum (tr_amount t))
  end.

(** [build()].  The address and the amount of the input object are never
    [undefined]; [this._conversion.length === ""] compares a number with a
    string and is never true. *)
Definition build (σ : Store) (b : TransactionBuilder) : outcome Transaction :=
  input ← defined "address" (inputs σ !! b_input b);
  throw_if (bool_decide (in_type input = None))
    (Error "Input must have an address, type, and amount specified");;
  throw_if (rejected_amount (in_amount input)) (Error amount_message);;
  neither ← match b_conversion b with
             | None =>
                 transfers ← defined "length" (transfers_of σ b);
                 Return (length transfers =? 0)%nat
             | Some _ => Return false
             end;
  throw_if neither (Error "Either a conversion or transfer must be specified");;
  throw_if (match b_conversion b with
            | Some c => bool_decide (in_type input = Some c)
            | None => false
            end)
    (Error "Conversion asset cannot be the same as the input asset.");;
  transfers ← defined "length" (transfers_of σ b);
  (if (0 <? length transfers)%nat then
     sum ← check_transfers (in_address input) transfers (BigNumber_of_Z 0);
     throw_if (negb (isEqualTo (in_amount input) sum))
       (Error "transfer amount must equal input amount")
   else Return tt);;
  throw_if (match b_timestamp b, b_signature b with
            | Some _, None => true
            | _, _ => false
            end)
    (Error "Missing signature: Inputs must have an associated signature");;
  throw_if (match b_signature b with
            | Some [] => true
            | _ => false
            end)
    (Error "Missing signature: Inputs must have an associated signature");;
  Transaction.constructor σ b.

End TransactionBuilder.
End TransactionBuilder.

(** ** 2/TransactionBatchBuilder.js and 2/TransactionBatch.js *)

(** A batch builder.  The source never assigns the [_keys] and [_content]
    that the batch constructor reads from it: both read as [undefined]. *)
Record TransactionBatchBuilder := {
  bb_tokenChainId : string;
  bb_version : Z;
  bb_transactions : loc;
  bb_signatures : option loc;
  bb_timestamp : option Z
}.

(** An element of [_extIds]. *)
Inductive ExtId :=
| ExtString (s : string)
| ExtBuffer (b : bytes)
| ExtUndefined.

(** A [TransactionBatch] instance built from a batch builder.  The
    constructor assigns [_transactions], [_tokenChainId], [_timestamp],
    [_extIds], [_rcds], [_content] and [_signatures]; [validateSignatures]
    reads [_signature] and [_rcd], which no line of the source assigns. *)
Record TransactionBatch := {
  tb_transactions : loc;
  tb_tokenChainId : string;
  tb_timestamp : Z;
  tb_extIds : list ExtId;
  tb_rcds : option (list (option bytes));
  tb_content : option string;
  tb_signatures : loc;
  tb_signature : option (list (option bytes));
  tb_rcd : option (list (option bytes))
}.

(** What the batch constructor calls and the sources do not define:
    [getContent()], which it calls on every member and which the class of
    2/Transaction.js does not have, so that it is left open whether the
    call returns; and [JSONBig.stringify] on [{version, transactions}]. *)
Class ContentEncoder := {
  Content : Type;
  getContent : Store -> Transaction -> outcome Content;
  JSONBig_stringify : Z -> list Content -> string
}.

(** [Math.round(new Date().getTime() / 1000)], for the clock in
    milliseconds. *)
Definition unixSeconds (now : Z) : Z := ((now + 500) / 1000)%Z.

(** [Buffer.concat([index, timestamp, chainId, content])], the bytes that
    are hashed and signed: the expression of [getMarshalDataSig] and of the
    signing loop of the batch constructor. *)
Definition marshalDataSig (inputIndex timestamp : Z)
    (tokenChainId content : string) : bytes :=
  let index := Buffer_from (toString inputIndex) in
  let timestamp := Buffer_from (toString timestamp) in
  let chainId := Buffer_from_hex tokenChainId in
  let content := Buffer_from content in
  index ++ timestamp ++ chainId ++ content.

Definition ext_of (x : option (option bytes)) : ExtId :=
  match x with
  | Some (Some b) => ExtBuffer b
  | _ => ExtUndefined
  end.

(** [for (let i = 0; i < rcds.length; i++)
       { extIds.push(rcds[i]); extIds.push(signatures[i]) }]. *)
Definition push_extIds (extIds : list ExtId)
    (rcds signatures : list (option bytes)) : list ExtId :=
  foldl (fun acc i => acc ++ [ext_of (rcds !! i); ext_of (signatures !! i)])
        extIds (seq 0 (length rcds)).

(** [arr[idx] = v], which lengthens a shorter array. *)
Definition array_set {A} (arr : list (option A)) (idx : nat) (v : A)
    : list (option A) :=
  if (idx <? length arr)%nat then <[idx := Some v]> arr
  else arr ++ replicate (idx - length arr) None ++ [Some v].

Module TransactionBatch.
Section TransactionBatch.
Context `{Collaborators} `{ContentEncoder}.

(** The first [forEach] of the second pass. *)
Fixpoint collect_rcds (transactions : list (option Transaction))
    : outcome (list (option bytes)) :=
  match transactions with
  | [] => Return []
  | tx :: rest =>
      tx ← defined "getRCD" tx;
      rcd ← defined "builder._keys[idx]" (Transaction.getRCD tx);
      rcds ← collect_rcds rest;
      Return (Some rcd :: rcds)
  end.

(** The [forEach] that snapshots the contents. *)
Fixpoint collect_contents (σ : Store) (transactions : list (option Transaction))
    : outcome (list Content) :=
  match transactions with
  | [] => Return []
  | tx :: rest =>
      tx ← defined "getContent" tx;
      content ← getContent σ tx;
      contents ← collect_contents σ rest;
      Return (content :: contents)
  end.

(** The signing [forEach] of the first pass, from index [idx] on. *)
Fixpoint sign_all (σ : Store) (timestamp : Z) (tokenChainId content : string)
    (idx : nat) (transactions : list (option Transaction))
    : outcome (list (option bytes)) :=
  match transactions with
  | [] => Return []
  | tx :: rest =>
      tx ← defined "sign" tx;
      sig ← Transaction.sign σ tx
              (sha512 (marshalDataSig (Z.of_nat idx) timestamp
                         tokenChainId content));
      sigs ← sign_all σ timestamp tokenChainId content (S idx) rest;
      Return (sig :: sigs)
  end.

(** [constructor(builder)], for
    [builder instanceof TransactionBatchBuilder], at clock [now]. *)
Definition constructor (σ : Store) (now : Z)
    (builder : TransactionBatchBuilder)
    : outcome (Store * TransactionBatch) :=
  let unixSeconds := unixSeconds now in
  transactions ← defined "forEach"
                   (transaction_arrays σ !! bb_transactions builder);
  match bb_signatures builder with
  | Some sigs =>
      rcds ← collect_rcds transactions;
      signatures ← defined "length" (signature_arrays σ !! sigs);
      throw_if (negb (length rcds =? length signatures)%nat)
        (Error "Missmatch between rcds and the number of signatures provided");;
      timestamp ← defined "toString" (bb_timestamp builder);
      Return (σ, {| tb_transactions := bb_transactions builder;
                    tb_tokenChainId := bb_tokenChainId builder;
                    tb_timestamp := timestamp;
                    tb_extIds := push_extIds [ExtString (toString timestamp)]
                                   rcds signatures;
                    tb_rcds := Some rcds;
                    tb_content := None;
                    tb_signatures := sigs;
                    tb_signature := None;
                    tb_rcd := None |})
  | None =>
      contents ← collect_contents σ transactions;
      let content := JSONBig_stringify 1 contents in
      signatures ← sign_all σ unixSeconds (bb_tokenChainId builder) content
                      0 transactions;
      let valid := forallb (fun sig => bool_decide (is_Some sig)) signatures in
      let sigs := new_loc (signature_arrays σ) in
      let σ' := set_signature_arrays σ
                  (<[sigs := signatures]> (signature_arrays σ)) in
      let rcds := map (fun tx => match tx with
                                 | Some tx => Transaction.getRCD tx
                                 | None => None
                                 end) transactions in
      Return (σ', {| tb_transactions := bb_transactions builder;
                     tb_tokenChainId := bb_tokenChainId builder;
                     tb_timestamp := unixSeconds;
                     tb_extIds :=
                       if valid
                       then push_extIds [ExtString (toString unixSeconds)]
                              rcds signatures
                       else [ExtString (toString unixSeconds)];
                     tb_rcds := if valid then Some rcds else None;
                     tb_content := Some content;
                     tb_signatures := sigs;
                     tb_signature := None;
                     tb_rcd := None |})
  end.

(** [getMarshalDataSig(tb, inputIndex)]; [Buffer.from(undefined)] is a
    [TypeError]. *)
Definition getMarshalDataSig (tb : TransactionBatch) (inputIndex : Z)
    : outcome bytes :=
  content ← defined "content" (tb_content tb);
  Return (marshalDataSig inputIndex (tb_timestamp tb) (tb_tokenChainId tb)
            content).

Definition getChainId (tb : TransactionBatch) : string := tb_tokenChainId tb.

Definition getTimestamp (tb : TransactionBatch) : Z := tb_timestamp tb.

(** The [forEach] of [validateSignatures], from index [i] on. *)
Fixpoint validate_all (tb : TransactionBatch)
    (signature rcd : list (option bytes)) (i : nat)
    (transactions : list (option Transaction)) : outcome unit :=
  match transactions with
  | [] => Return tt
  | tx :: rest =>
      tx ← defined "validateSignature" tx;
      data ← getMarshalDataSig tb (Z.of_nat i);
      valid ← Transaction.validateSignature tx (sha512 data)
                (mjoin (signature !! i));
      throw_if (negb valid)
        (Error ("Invalid Transaction Signature for input "
                +:+ toString (Z.of_nat i)));;
      validate_all tb signature rcd (S i) rest
  end.

(** [validateSignatures()]. *)
Definition validateSignatures (σ : Store) (tb : TransactionBatch)
    : outcome bool :=
  match tb_signature tb, tb_rcd tb with
  | Some signature, Some rcd =>
      transactions ← defined "forEach"
                       (transaction_arrays σ !! tb_transactions tb);
      validate_all tb signature rcd 0 transactions;;
      Return true
  | _, _ => Throw (Error "Transaction not signed")
  end.

End TransactionBatch.
End TransactionBatch.

(** What the identifier [t] is bound to in the global scope, when it is. *)
Inductive GlobalValue :=
| GlobalTransaction (t : Transaction)
| GlobalOther.

Module TransactionBatchBuilder.
Section TransactionBatchBuilder.
Context `{Collaborators} `{ContentEncoder}.

Definition tokenChainId : string :=
  "cffce0f409ebba4ed236d49d89c70e4bd1f1367d86402a3363366683265a242d".

(** [constructor(t)]: from a batch, or else with a new empty array. *)
Definition constructor (σ : Store) (t : option TransactionBatch)
    : Store * TransactionBatchBuilder :=
  match t with
  | Some t =>
      (σ, {| bb_tokenChainId := tokenChainId;
             bb_version := 1;
             bb_transactions := tb_transactions t;
             bb_signatures := Some (tb_signatures t);
             bb_timestamp := Some (tb_timestamp t) |})
  | None =>
      let transactions := new_loc (transaction_arrays σ) in
      (set_transaction_arrays σ
         (<[transactions := []]> (transaction_arrays σ)),
       {| bb_tokenChainId := tokenChainId;
          bb_version := 1;
          bb_transactions := transactions;
          bb_signatures := None;
          bb_timestamp := None |})
  end.

(** [transaction(tx)]. *)
Definition transaction (σ : Store) (b : TransactionBatchBuilder)
    (tx : option Transaction) : outcome (Store * TransactionBatchBuilder) :=
  transactions ← defined "push" (transaction_arrays σ !! bb_transactions b);
  Return (set_transaction_arrays σ
            (<[bb_transactions b := transactions ++ [tx]]>
               (transaction_arrays σ)),
          b).

(** [this._transactions.find((o, i) => ...)]: the first index whose
    member has the input address of [tx]. *)
Fixpoint find_input (σ : Store) (tx : Transaction) (i : nat)
    (transactions : list (option Transaction)) : outcome (option nat) :=
  match transactions with
  | [] => Return None
  | o :: rest =>
      o ← defined "getInput" o;
      input ← defined "address" (Transaction.getInput σ o);
      input_tx ← defined "address" (Transaction.getInput σ tx);
      if String.eqb (in_address input) (in_address input_tx)
      then Return (Some i)
      else find_input σ tx (S i) rest
  end.

(** [pkSignature(tx, signature)].  Its first line is
    [if ( t instanceof Transaction )].  The parameters are [tx] and
    [signature], and the module binds [constant], [nacl],
    [fctAddressUtil], [fctIdentityUtil], [BigNumber], [util],
    [Transaction] and [TransactionBatchBuilder]: the identifier [t] is
    bound by none of them and is looked up in the global scope, where
    [global_t] is its binding, if it has one. *)
Definition pkSignature (global_t : option GlobalValue) (σ : Store)
    (b : TransactionBatchBuilder) (tx : Transaction) (signature : bytes)
    : outcome (Store * TransactionBatchBuilder) :=
  t ← match global_t with
       | Some t => Return t
       | None => Throw (ReferenceError "t is not defined")
       end;
  match t with
  | GlobalTransaction _ =>
      transactions ← defined "find"
                       (transaction_arrays σ !! bb_transactions b);
      obj ← find_input σ tx 0 transactions;
      match obj with
      | Some idx =>
          sigs ← defined "idx" (bb_signatures b);
          signatures ← defined "idx" (signature_arrays σ !! sigs);
          Return (set_signature_arrays σ
                    (<[sigs := array_set signatures idx signature]>
                       (signature_arrays σ)),
                  b)
      | None =>
          input ← defined "address" (Transaction.getInput σ tx);
          Throw (Error ("Transaction " +:+ in_address input
                        +:+ " not found, so signature cannot be assigned."))
      end
  | GlobalOther => Return (σ, b)
  end.

(** The loop of [build]; [this._signatures[i].find(s => s === undefined)]
    finds nothing in a signature and is a [TypeError] on [undefined]. *)
Fixpoint check_transactions (signatures : option (list (option bytes)))
    (i : nat) (transactions : list (option Transaction)) : outcome unit :=
  match transactions with
  | [] => Return tt
  | tx :: rest =>
      throw_if (bool_decide (tx = None))
        (Error ("Malformed transaction" +:+ toString (Z.of_nat i)));;
      match signatures with
      | Some signatures =>
          defined "find" (mjoin (signatures !! i));; Return tt
      | None => Return tt
      end;;
      check_transactions signatures (S i) rest
  end.

(** [build()], at clock [now]. *)
Definition build (σ : Store) (now : Z) (b : TransactionBatchBuilder)
    : outcome (Store * TransactionBatch) :=
  transactions ← defined "length" (transaction_arrays σ !! bb_transactions b);
  throw_if (length transactions =? 0)%nat (Error "No Transactions Specified.");;
  signatures ← match bb_signatures b with
                | Some sigs =>
                    signatures ← defined "length" (signature_arrays σ !! sigs);
                    throw_if (negb (length signatures =? length transactions)%nat)
                      (Error "Expecting the same number of signatures as there are number of transactions");;
                    Return (Some signatures)
                | None => Return None
                end;
  check_transactions signatures 0 transactions;;
  TransactionBatch.constructor σ now b.

End TransactionBatchBuilder.
End TransactionBatchBuilder.

(** ** What the properties speak of *)

(** The sum the loop of [build] accumulates: [new BigNumber(0)] plus every
    transfer amount, in order. *)
Definition sum_amounts (transfers : list Transfer) : BigNumber :=
  foldl plus (BigNumber_of_Z 0) (map tr_amount transfers).

(** A transfer that passes the two checks of the loop of [build]. *)
Definition valid_transfer (input_address : string) (t : Transfer) : Prop :=
  rejected_amount (tr_amount t) = false ∧ tr_address t ≠ input_address.

Definition conservation_error : exn :=
  Error "transfer amount must equal input amount".

Definition self_transfer_error : exn :=
  Error "input cannot be the same as the transfer address".

Definition conversion_set_error : exn := Error "Conversion already specified".

Definition transfers_set_error : exn :=
  Error "One or more transfer(s) already specified for this transaction".

Definition signature_length_error : exn := Error "Invalid Signature Length.".

Definition address_mismatch_error (pk : bytes) : exn :=
  Error ("Public Key (" +:+ toString_hex pk
         +:+ ") for provided signature does not match input adderess.").

Definition not_signed_error : exn := Error "Transaction not signed".

Definition empty_batch_error : exn := Error "No Transactions Specified.".

(** ** Calls and observations

    What can be seen of an instance through its fields, and the calls that
    can be made on the builders, to state which calls change what. *)


Inductive BuilderCall :=
| CallInput (type_ : option string) (fs : string) (amount_ : option BigNumber)
| CallTransfer (fa : string) (amount : option BigNumber)
| CallConversion (convert_to_type_ : string)
| CallMetadata (metadata : JsValue)
| CallPkSignature (publicKey : PublicKeyArgument) (signature : bytes)
| CallBuild.


Section Calls.
Context `{Collaborators} `{ContentEncoder}.

Definition call (σ : Store) (b : TransactionBuilder) (c : BuilderCall)
    : outcome (Store * TransactionBuilder) :=
  match c with
  | CallInput type_ fs amount_ => TransactionBuilder.input σ b type_ fs amount_
  | CallTransfer fa amount => TransactionBuilder.transfer σ b fa amount
  | CallConversion c => TransactionBuilder.conversion σ b c
  | CallMetadata m => TransactionBuilder.metadata σ b m
  | CallPkSignature publicKey signature =>
      TransactionBuilder.pkSignature σ b publicKey signature
  | CallBuild => TransactionBuilder.build σ b;; Return (σ, b)
  end.


End Calls.


(** ** A concrete instance of the libraries

    Addresses are a two-letter prefix and a body: ["Fs"] for a private
    address, ["FA"] for a public one.  A key is 32 bytes long: the seed
    and the public key of a private address are the bytes of its body
    followed by zero bytes, and the secret key is the seed followed by the
    public key.  A signature is 64 bytes long: the public key followed by
    the first 32 bytes of the message.  As in the libraries, the address
    of a key that is not 32 bytes long is an error, and so is the
    verification of a signature that is not 64 bytes long or under a key
    that is not 32 bytes long.  The members of a batch are instances of
    the [Transaction] class of 2/Transaction.js, which defines no
    [getContent]: the call is a [TypeError]. *)

Module Example.

Definition body (s : string) : string :=
  String.substring 2 (String.length s - 2) s.

(** The key of a body. *)
Definition key_of (body : string) : bytes :=
  take 32 (Buffer_from body ++ replicate 32 x00).

(** The bytes of a key up to its first zero byte. *)
Fixpoint unpadded (key : bytes) : bytes :=
  match key with
  | [] => []
  | x :: rest =>
      if (N_of_ascii (ascii_of_byte x) =? 0)%N then [] else x :: unpadded rest
  end.

Definition example_address (publicKey : bytes) : outcome string :=
  if (length publicKey =? 32)%nat
  then Return ("FA" +:+ string_of_list_byte (unpadded publicKey))
  else Throw (Error ("Key " +:+ string_of_list_byte publicKey
                     +:+ " is not 32 bytes long.")).

Definition example_sign (msg secretKey : bytes) : bytes :=
  take 32 secretKey ++ take 32 (msg ++ replicate 32 x00).

Definition example_verify (msg sig publicKey : bytes) : outcome bool :=
  if negb (length sig =? 64)%nat then Throw (Error "bad signature size")
  else if negb (length publicKey =? 32)%nat
       then Throw (Error "bad public key size")
       else Return (String.eqb (toString_hex sig)
                      (toString_hex
                         (publicKey ++ take 32 (msg ++ replicate 32 x00)))).

#[export] Instance collaborators : Collaborators := {|
  isValidPrivateAddress s := String.prefix "Fs" s;
  isValidPublicFctAddress s := String.prefix "FA" s;
  getPublicAddress s := "FA" +:+ body s;
  addressToKey s := key_of (body s);
  keyToPublicFctAddress := example_address;
  keyPair_fromSeed seed := (seed, seed ++ seed);
  detached := example_sign;
  detached_verify := example_verify;
  sha512 msg := msg;
  RCD_TYPE_1 := [x01]
|}.

#[export] Instance encoder : ContentEncoder := {|
  Content := string;
  getContent σ t := Throw (TypeError "tx.getContent is not a function");
  JSONBig_stringify version transactions :=
    "{version:" +:+ toString version +:+ ",transactions:["
      +:+ String.concat "," transactions +:+ "]}"
|}.

Definition amount (z : Z) : option BigNumber := Some (BigNumber_of_Z z).

(** [new TransactionBuilder().input("pFCT", "Fs1", 150)] *)
Definition with_input : outcome (Store * TransactionBuilder) :=
  '(σ, b) ← TransactionBuilder.constructor empty_store NoArgument;
  TransactionBuilder.input σ b (Some "pFCT") "Fs1" (amount 150).

(** [...transfer("FA2", 150)] *)
Definition with_transfer : outcome (Store * TransactionBuilder) :=
  '(σ, b) ← with_input;
  TransactionBuilder.transfer σ b "FA2" (amount 150).

(** [...transfer("FA1", 151)]: a transfer to the input address itself,
    of one unit more than the input. *)
Definition with_self_transfer : outcome (Store * TransactionBuilder) :=
  '(σ, b) ← with_input;
  TransactionBuilder.transfer σ b "FA1" (amount 151).

(** [...conversion("PEG")] *)
Definition with_conversion : outcome (Store * TransactionBuilder) :=
  '(σ, b) ← with_input;
  TransactionBuilder.conversion σ b "PEG".

(** [new TransactionBuilder().input("pFCT", "Fs1", 0).conversion("PEG")] *)
Definition with_zero_input : outcome (Store * TransactionBuilder) :=
  '(σ, b) ← TransactionBuilder.constructor empty_store NoArgument;
  '(σ, b) ← TransactionBuilder.input σ b (Some "pFCT") "Fs1" (amount 0);
  TransactionBuilder.conversion σ b "PEG".

(** [tx = ...transfer("FA2", 150).build()] *)
Definition built : outcome (Store * TransactionBuilder * Transaction) :=
  '(σ, b) ← with_transfer;
  tx ← TransactionBuilder.build σ b;
  Return (σ, b, tx).





(** [new TransactionBatchBuilder().transaction(tx)] for the transaction
    of [built]. *)
Definition batch_builder : outcome (Store * TransactionBatchBuilder) :=
  '(σ, _, tx) ← built;
  let '(σ, bb) := TransactionBatchBuilder.constructor σ None in
  TransactionBatchBuilder.transaction σ bb (Some tx).

(** The transaction of [built]. *)
Definition built_transaction : Transaction :=
  {| t_input := 0; t_conversion := None; t_transfers := Some 0;
     t_metadata := None; t_key := 1; t_rcd := Some (x01 :: key_of "1");
     t_timestamp := None; t_signature := None |}.

End Example.

(** ** Sequences of calls *)

Section Sequences.
Context `{Collaborators} `{ContentEncoder}.

(** Calls made one after the other on a transaction builder; the first
    that throws ends the sequence. *)
Fixpoint calls (σ : Store) (b : TransactionBuilder) (cs : list BuilderCall)
    : outcome (Store * TransactionBuilder) :=
  match cs with
  | [] => Return (σ, b)
  | c :: rest => '(σ', b') ← call σ b c; calls σ' b' rest
  end.

(** [transaction(tx)] for every element of [txs], in order. *)
Fixpoint transactions (σ : Store) (b : TransactionBatchBuilder)
    (txs : list (option Transaction))
    : outcome (Store * TransactionBatchBuilder) :=
  match txs with
  | [] => Return (σ, b)
  | tx :: rest =>
      '(σ', b') ← TransactionBatchBuilder.transaction σ b tx;
      transactions σ' b' rest
  end.

End Sequences.

(** The calls that leave the key of a builder alone: all but [input] and
    [pkSignature]. *)
Definition keeps_key (c : BuilderCall) : Prop :=
  match c with
  | CallInput _ _ _ | CallPkSignature _ _ => False
  | _ => True
  end.

(** The builder has a transfers array, which is empty when a conversion
    is set. *)
Definition conversion_without_transfers (σ : Store) (b : TransactionBuilder)
    : Prop :=
  ∃ transfers,
    transfers_of σ b = Some transfers
    ∧ (is_Some (b_conversion b) -> transfers = []).

(** What the [build] of a batch builder throws. *)
Definition malformed_error (i : nat) : exn :=
  Error ("Malformed transaction" +:+ toString (Z.of_nat i)).

(** ** Further scenarios on the concrete instance *)

Module Scenarios.
Import Example.

(** [new TransactionBuilder().input("pFCT", "FA1", 150)]: the input given
    as a public address. *)
Definition with_public_input : outcome (Store * TransactionBuilder) :=
  '(σ, b) ← TransactionBuilder.constructor empty_store NoArgument;
  TransactionBuilder.input σ b (Some "pFCT") "FA1" (amount 150).

(** [...transfer("FA2", 150).pkSignature(<key of FA1>, <64 bytes>)]: the
    public key of FA1 and a signature made elsewhere. *)
Definition externally_signed : outcome (Store * TransactionBuilder) :=
  '(σ, b) ← with_public_input;
  '(σ, b) ← TransactionBuilder.transfer σ b "FA2" (amount 150);
  TransactionBuilder.pkSignature σ b (RawKey (key_of "1")) (replicate 64 x00).

(** [new TransactionBatchBuilder().transaction(tx)] for the transaction
    built from [externally_signed]. *)
Definition external_batch_builder
    : outcome (Store * TransactionBatchBuilder) :=
  '(σ, b) ← externally_signed;
  tx ← TransactionBuilder.build σ b;
  let '(σ, bb) := TransactionBatchBuilder.constructor σ None in
  TransactionBatchBuilder.transaction σ bb (Some tx).

(** The transaction of [external_batch_builder]. *)
Definition external_transaction : Transaction :=
  {| t_input := 0; t_conversion := None; t_transfers := Some 0;
     t_metadata := None; t_key := 1; t_rcd := Some (x01 :: key_of "1");
     t_timestamp := None; t_signature := None |}.

(** [tx = ...conversion("PEG").build()] *)
Definition converted : outcome (Store * TransactionBuilder * Transaction) :=
  '(σ, b) ← with_conversion;
  tx ← TransactionBuilder.build σ b;
  Return (σ, b, tx).

End Scenarios.

(** ** Tactics *)

Ltac outcome_simpl :=
  unfold mbind, outcome_bind, mret, outcome_ret, throw_if, defined in *;
  simpl in *.

(** The innermost scrutinee at the head of a chain of binds. *)
Ltac head_scrutinee m :=
  lazymatch m with
  | match ?x with _ => _ end => head_scrutinee x
  | _ => m
  end.

(** One step along a chain of binds that is known to return: the case of
    its first test, the throwing branch discarded. *)
Ltac step E :=
  lazymatch type of E with
  | match ?x with _ => _ end = _ =>
      let m := head_scrutinee x in
      destruct m eqn:?; try discriminate E; simpl in E
  end.

(** * Properties *)

(** ** Marshal-for-signature *)

Lemma toString_inj (n m : Z) : toString n = toString m -> n = m.
Proof.
  unfold toString. intros E.
  apply DecimalZ.to_int_inj.
  assert (P : forall z, NilZero.int_of_string
                          (NilZero.string_of_int (Z.to_int z))
                        = Some (Z.to_int z)).
  { intros z. apply NilZero.isi; destruct z; simpl; try discriminate;
      intros [= E']; now apply Unsigned.to_uint_nonnil in E'. }
  apply (f_equal NilZero.int_of_string) in E.
  rewrite !P in E. now injection E.
Qed.

Lemma Buffer_from_inj (s s' : string) : Buffer_from s = Buffer_from s' -> s = s'.
Proof.
  unfold Buffer_from. intros E.
  apply (f_equal string_of_list_byte) in E.
  now rewrite !string_of_list_byte_of_string in E.
Qed.

Lemma marshalDataSig_concat (i t : Z) (c x : string) :
  marshalDataSig i t c x
  = Buffer_from (toString i) ++ Buffer_from (toString t)
      ++ Buffer_from_hex c ++ Buffer_from x.
Proof. reflexivity. Qed.

Lemma getMarshalDataSig_marshalDataSig (tb : TransactionBatch) (i : Z)
    (content : string) :
  tb_content tb = Some content ->
  TransactionBatch.getMarshalDataSig tb i
  = Return (marshalDataSig i (tb_timestamp tb) (tb_tokenChainId tb) content).
Proof. intros E. unfold TransactionBatch.getMarshalDataSig. now rewrite E. Qed.

(** C2, as stated, fails: the index and the timestamp are joined without a
    separator, so index 1 at time 23 and index 12 at time 3 marshal to the
    same bytes. *)
Lemma marshalDataSig_not_injective :
  (1, 23)%Z <> (12, 3)%Z
  /\ marshalDataSig 1 23 TransactionBuilder.tokenChainId "{}"
     = marshalDataSig 12 3 TransactionBuilder.tokenChainId "{}".
Proof. split; [discriminate | reflexivity]. Qed.

(** C2, amended: what [getMarshalDataSig] returns for a batch is a
    function of the four fields, namely index, timestamp, chain identifier
    (decoded from hex) and content, concatenated in that order; and
    changing one field alone, the other three kept, changes the bytes. *)
Theorem marshalDataSig_deterministic_injective_per_field
    (i i' t t' : Z) (c c' x x' : string) :
  (forall tb : TransactionBatch,
     tb_timestamp tb = t -> tb_tokenChainId tb = c -> tb_content tb = Some x ->
     TransactionBatch.getMarshalDataSig tb i = Return (marshalDataSig i t c x))
  /\ (i = i' -> t = t' -> Buffer_from_hex c = Buffer_from_hex c' -> x = x' ->
      marshalDataSig i t c x = marshalDataSig i' t' c' x')
  /\ marshalDataSig i t c x
     = Buffer_from (toString i) ++ Buffer_from (toString t)
         ++ Buffer_from_hex c ++ Buffer_from x
  /\ (i <> i' -> marshalDataSig i t c x <> marshalDataSig i' t c x)
  /\ (t <> t' -> marshalDataSig i t c x <> marshalDataSig i t' c x)
  /\ (Buffer_from_hex c <> Buffer_from_hex c' ->
        marshalDataSig i t c x <> marshalDataSig i t c' x)
  /\ (x <> x' -> marshalDataSig i t c x <> marshalDataSig i t c x').
Proof.
  split.
  { intros tb <- <- X. now apply getMarshalDataSig_marshalDataSig. }
  rewrite !marshalDataSig_concat. repeat split.
  - intros -> -> -> ->. reflexivity.
  - intros N E. apply N, toString_inj, Buffer_from_inj.
    now apply app_inv_tail in E.
  - intros N E. apply N, toString_inj, Buffer_from_inj.
    apply app_inv_head in E. now apply app_inv_tail in E.
  - intros N E. apply N.
    do 2 apply app_inv_head in E. now apply app_inv_tail in E.
  - intros N E. apply N, Buffer_from_inj.
    now do 3 apply app_inv_head in E.
Qed.

(** ** The transaction builder *)

(** An amount passes the test of the builders exactly when it is a
    non-negative integer. *)
Lemma rejected_amount_false (x : BigNumber) :
  rejected_amount x = false
  <-> ∃ q n, x = BFinite q ∧ (0 <= n)%Z ∧ Qeq q (inject_Z n).
Proof.
  unfold rejected_amount. split.
  - destruct x as [| |q]; try discriminate. simpl.
    intros E. apply orb_false_iff in E as [E1 E2].
    apply negb_false_iff in E1, E2.
    apply Z.eqb_eq in E1. apply Qle_bool_iff in E2.
    unfold Qle in E2. simpl in E2.
    exists q, (Qnum q / Z.pos (Qden q))%Z. split; [reflexivity|]. split.
    + apply Z.div_pos; lia.
    + unfold Qeq. simpl.
      pose proof (Z.div_mod (Qnum q) (Z.pos (Qden q))). lia.
  - intros (q & n & -> & N & E). unfold Qeq in E. simpl in *.
    apply orb_false_iff. split; apply negb_false_iff.
    + apply Z.eqb_eq. replace (Qnum q) with (n * Z.pos (Qden q))%Z by lia.
      apply Z.mod_mul. lia.
    + apply Qle_bool_iff. unfold Qle. simpl. nia.
Qed.

Section TransactionBuilderProperties.
Context `{Collaborators}.

Lemma check_transfers_Return (a : string) (ts : list Transfer)
    (s s' : BigNumber) :
  TransactionBuilder.check_transfers a ts s = Return s' ->
  s' = foldl plus s (map tr_amount ts) ∧ Forall (valid_transfer a) ts.
Proof.
  revert s. induction ts as [|t ts IH]; intros s E; simpl in E.
  - injection E as <-. split; [reflexivity | constructor].
  - outcome_simpl.
    destruct (rejected_amount (tr_amount t)) eqn:R; [discriminate|].
    destruct (String.eqb a (tr_address t)) eqn:A; [discriminate|].
    apply IH in E as [-> F]. split; [reflexivity|].
    constructor; [|exact F]. split; [exact R|].
    apply String.eqb_neq in A. congruence.
Qed.

Lemma check_transfers_valid (a : string) (ts : list Transfer) (s : BigNumber) :
  Forall (valid_transfer a) ts ->
  TransactionBuilder.check_transfers a ts s
  = Return (foldl plus s (map tr_amount ts)).
Proof.
  intros F. revert s. induction F as [|t ts [R A] F IH]; intros s; simpl.
  - reflexivity.
  - outcome_simpl. rewrite R.
    assert (String.eqb a (tr_address t) = false) as ->
      by (apply String.eqb_neq; congruence).
    apply IH.
Qed.

(** What a successful [build] has checked. *)
Lemma build_Return (σ : Store) (b : TransactionBuilder) (tx : Transaction) :
  TransactionBuilder.build σ b = Return tx ->
  ∃ input transfers,
    inputs σ !! b_input b = Some input
    ∧ transfers_of σ b = Some transfers
    ∧ in_type input ≠ None
    ∧ rejected_amount (in_amount input) = false
    ∧ (b_conversion b = None -> transfers ≠ [])
    ∧ (transfers ≠ [] ->
         Forall (valid_transfer (in_address input)) transfers
         ∧ isEqualTo (in_amount input) (sum_amounts transfers) = true)
    ∧ Transaction.constructor σ b = Return tx.
Proof.
  unfold TransactionBuilder.build. intros E.
  destruct (inputs σ !! b_input b) as [input|] eqn:I; [|discriminate E].
  exists input.
  destruct (transfers_of σ b) as [ts|] eqn:T.
  2:{ outcome_simpl. repeat step E. }
  exists ts. outcome_simpl.
  destruct (bool_decide (in_type input = None)) eqn:Ty; [discriminate|].
  apply bool_decide_eq_false in Ty.
  destruct (rejected_amount (in_amount input)) eqn:R; [discriminate|].
  simpl in E.
  assert (N : b_conversion b = None -> ts ≠ []).
  { intros C. rewrite C in E. intros ->. simpl in E. discriminate. }
  repeat step E.
  all: repeat split; try assumption.
  all: try (intros; exfalso; destruct ts; [congruence | discriminate]).
  all: match goal with
       | Hc : TransactionBuilder.check_transfers _ _ _ = Return _ |- _ =>
           apply check_transfers_Return in Hc as [-> Hc]
       end.
  all: try assumption.
  all: match goal with
       | He : negb (isEqualTo _ _) = false |- _ =>
           apply negb_false_iff in He; exact He
       end.
Qed.

(** C1, amended: with at least one transfer, [build] returns a
    transaction only if the transfer amounts sum to the input amount;
    when they do not, [build] throws, and what it throws is the
    conservation error whenever the checks that come before pass: the
    input type is defined, the input amount is a non-negative integer,
    the conversion is not the input type, and every transfer has a
    non-negative integer amount and an address other than the input
    address. *)
Theorem build_conservation (σ : Store) (b : TransactionBuilder)
    (input : Input) (transfers : list Transfer) :
  inputs σ !! b_input b = Some input ->
  transfers_of σ b = Some transfers ->
  transfers ≠ [] ->
  (∀ tx, TransactionBuilder.build σ b = Return tx ->
         isEqualTo (in_amount input) (sum_amounts transfers) = true)
  ∧ (isEqualTo (in_amount input) (sum_amounts transfers) = false ->
     throws (TransactionBuilder.build σ b) = true
     ∧ (in_type input ≠ None ->
        rejected_amount (in_amount input) = false ->
        (∀ c, b_conversion b = Some c -> in_type input ≠ Some c) ->
        Forall (valid_transfer (in_address input)) transfers ->
        TransactionBuilder.build σ b = Throw conservation_error)).
Proof.
  intros I T N. split; [|intros Ne; split].
  - intros tx E. apply build_Return in E as (i & ts & I' & T' & _ & _ & _ & S & _).
    simplify_eq. now apply S.
  - destruct (TransactionBuilder.build σ b) as [tx|e] eqn:E; [|reflexivity].
    apply build_Return in E as (i & ts & I' & T' & _ & _ & _ & S & _).
    simplify_eq. apply S in N as [_ S']. congruence.
  - intros Ty R C F. unfold TransactionBuilder.build.
    assert (L : (0 <? length transfers)%nat = true)
      by (destruct transfers; [congruence | reflexivity]).
    assert (L0 : (length transfers =? 0)%nat = false)
      by (destruct transfers; [congruence | reflexivity]).
    rewrite I, T. outcome_simpl.
    rewrite bool_decide_eq_false_2 by assumption. rewrite R, L, L0.
    rewrite (check_transfers_valid _ _ _ F).
    fold (sum_amounts transfers). rewrite Ne.
    destruct (b_conversion b) as [c|] eqn:Ec; simpl;
      [rewrite (bool_decide_eq_false_2 _ (C c eq_refl))|]; reflexivity.
Qed.

Lemma transfer_Return (σ σ' : Store) (b b' : TransactionBuilder)
    (fa : string) (amount : option BigNumber) :
  TransactionBuilder.transfer σ b fa amount = Return (σ', b') ->
  ∃ arr old amt,
    b_transfers b = Some arr
    ∧ transfer_arrays σ !! arr = Some old
    ∧ amt = default (BigNumber_of_Z 0) amount
    ∧ rejected_amount amt = false
    ∧ isValidPublicFctAddress fa = true
    ∧ b_conversion b = None
    ∧ b_signature b = None
    ∧ b' = b
    ∧ σ' = set_transfer_arrays σ
             (<[arr := old ++ [{| tr_address := fa; tr_amount := amt |}]]>
                (transfer_arrays σ)).
Proof.
  unfold TransactionBuilder.transfer. outcome_simpl. intros E.
  destruct (b_conversion b) as [c|] eqn:C; [discriminate|].
  destruct (b_signature b) as [s|] eqn:S; [discriminate|].
  simpl in E.
  destruct (isValidPublicFctAddress fa) eqn:V; [|discriminate].
  simpl in E.
  destruct (rejected_amount _) eqn:R in E; [discriminate|].
  destruct (b_transfers b) as [arr|] eqn:A; [|discriminate].
  destruct (transfer_arrays σ !! arr) as [old|] eqn:O; [|discriminate].
  injection E as <- <-.
  exists arr, old, (default (BigNumber_of_Z 0) amount).
  destruct amount; simpl in *; repeat split; assumption || reflexivity.
Qed.

(** A conversion, once set, stays set under every call that returns. *)
Lemma call_keeps_conversion (σ σ' : Store) (b b' : TransactionBuilder)
    (c : BuilderCall) :
  call σ b c = Return (σ', b') ->
  is_Some (b_conversion b) -> is_Some (b_conversion b').
Proof.
  intros E [cv C].
  destruct c as [type_ fs amount_|fa amount|cv'|m|publicKey signature|];
    simpl in E.
  - unfold TransactionBuilder.input in E. outcome_simpl.
    repeat step E; simplify_eq; simpl; rewrite C; eauto.
  - unfold TransactionBuilder.transfer in E. rewrite C in E. discriminate.
  - unfold TransactionBuilder.conversion in E. outcome_simpl.
    repeat step E; simplify_eq; simpl; eauto.
  - unfold TransactionBuilder.metadata in E. outcome_simpl.
    repeat step E; simplify_eq; simpl; rewrite C; eauto.
  - unfold TransactionBuilder.pkSignature in E. outcome_simpl.
    repeat step E; simplify_eq; simpl; rewrite C; eauto.
  - outcome_simpl. destruct (TransactionBuilder.build σ b); [|discriminate].
    simplify_eq. rewrite C; eauto.
Qed.

(** A transfers array with an element keeps one under every call that
    returns. *)
Lemma call_keeps_transfers (σ σ' : Store) (b b' : TransactionBuilder)
    (c : BuilderCall) (t : Transfer) (ts : list Transfer) :
  call σ b c = Return (σ', b') ->
  transfers_of σ b = Some (t :: ts) ->
  ∃ ts', transfers_of σ' b' = Some (t :: ts').
Proof.
  intros E T.
  destruct c as [type_ fs amount_|fa amount|cv'|m|publicKey signature|];
    simpl in E.
  - unfold TransactionBuilder.input in E. outcome_simpl.
    repeat step E; simplify_eq; exists ts; exact T.
  - apply transfer_Return in E
      as (arr & old & amt & A & O & _ & _ & _ & _ & _ & -> & ->).
    unfold transfers_of in *. rewrite A in *. simpl.
    rewrite lookup_insert_eq. rewrite O in T. injection T as ->.
    eexists. reflexivity.
  - unfold TransactionBuilder.conversion in E. rewrite T in E. discriminate.
  - unfold TransactionBuilder.metadata in E. outcome_simpl.
    repeat step E; simplify_eq; exists ts; exact T.
  - unfold TransactionBuilder.pkSignature in E. outcome_simpl.
    repeat step E; simplify_eq; exists ts; exact T.
  - outcome_simpl. destruct (TransactionBuilder.build σ b); [|discriminate].
    simplify_eq. exists ts; exact T.
Qed.

(** C6: a conversion and transfers exclude each other.  [transfer] throws
    when a conversion is set, hence after every [conversion] that
    returned; [conversion] throws when the transfers array has an element,
    hence after every [transfer] that returned; later calls unset neither;
    and [build] throws when neither a conversion nor a transfer is set. *)
Theorem conversion_transfers_exclusive (σ : Store) (b : TransactionBuilder) :
  (∀ c fa amount,
     b_conversion b = Some c ->
     TransactionBuilder.transfer σ b fa amount = Throw conversion_set_error)
  ∧ (∀ c σ' b' fa amount,
       TransactionBuilder.conversion σ b c = Return (σ', b') ->
       TransactionBuilder.transfer σ' b' fa amount = Throw conversion_set_error)
  ∧ (∀ t ts c,
       transfers_of σ b = Some (t :: ts) ->
       TransactionBuilder.conversion σ b c = Throw transfers_set_error)
  ∧ (∀ fa amount σ' b' c,
       TransactionBuilder.transfer σ b fa amount = Return (σ', b') ->
       TransactionBuilder.conversion σ' b' c = Throw transfers_set_error)
  ∧ (∀ c σ' b',
       call σ b c = Return (σ', b') ->
       (is_Some (b_conversion b) -> is_Some (b_conversion b'))
       ∧ (∀ t ts, transfers_of σ b = Some (t :: ts) ->
                  ∃ ts', transfers_of σ' b' = Some (t :: ts')))
  ∧ (b_conversion b = None ->
     transfers_of σ b = Some [] ∨ transfers_of σ b = None ->
     throws (TransactionBuilder.build σ b) = true).
Proof.
  split; [|split; [|split; [|split; [|split]]]].
  - intros c fa amount C. unfold TransactionBuilder.transfer.
    rewrite C. reflexivity.
  - intros c σ' b' fa amount E. unfold TransactionBuilder.conversion in E.
    outcome_simpl.
    destruct (transfers_of σ b) as [ts|]; [|discriminate].
    destruct (0 <? length ts)%nat; [discriminate|].
    destruct (b_signature b); [discriminate|].
    injection E as <- <-. reflexivity.
  - intros t ts c T. unfold TransactionBuilder.conversion.
    rewrite T. reflexivity.
  - intros fa amount σ' b' c E.
    apply transfer_Return in E
      as (arr & old & amt & A & O & _ & _ & _ & _ & _ & -> & ->).
    unfold TransactionBuilder.conversion, transfers_of. rewrite A. simpl.
    rewrite lookup_insert_eq. outcome_simpl.
    rewrite length_app. simpl.
    replace (0 <? length old + 1)%nat with true; [reflexivity|].
    symmetry. apply Nat.ltb_lt. lia.
  - intros c σ' b' E. split.
    + exact (call_keeps_conversion _ _ _ _ _ E).
    + intros t ts. exact (call_keeps_transfers _ _ _ _ _ _ _ E).
  - intros C T.
    destruct (TransactionBuilder.build σ b) as [tx|e] eqn:E; [|reflexivity].
    apply build_Return in E as (i & ts & _ & T' & _ & _ & N & _).
    specialize (N C). destruct T as [T|T]; congruence.
Qed.

(** C7, amended: [pkSignature] first derives the address of the public
    key, and throws what that derivation throws, whatever the signature.
    When it derives an address: for every signature that is not 64 bytes
    long [pkSignature] throws the signature-length error; for a signature
    of 64 bytes it throws the address-mismatch error when the derived
    address is not the input address; and it returns, recording the key
    and the signature, exactly for a signature of 64 bytes whose derived
    address is the input address. *)
Theorem pkSignature_checks (σ : Store) (b : TransactionBuilder)
    (publicKey : PublicKeyArgument) (signature : bytes) (input : Input) :
  inputs σ !! b_input b = Some input ->
  (∀ e,
     keyToPublicFctAddress (TransactionBuilder.Buffer_from_key publicKey)
     = Throw e ->
     TransactionBuilder.pkSignature σ b publicKey signature = Throw e)
  ∧ ∀ fa,
      keyToPublicFctAddress (TransactionBuilder.Buffer_from_key publicKey)
      = Return fa ->
      (length signature ≠ 64 ->
         TransactionBuilder.pkSignature σ b publicKey signature
         = Throw signature_length_error)
      ∧ (length signature = 64 -> fa ≠ in_address input ->
         TransactionBuilder.pkSignature σ b publicKey signature
         = Throw (address_mismatch_error
                    (TransactionBuilder.Buffer_from_key publicKey)))
      ∧ (∀ σ' b',
           TransactionBuilder.pkSignature σ b publicKey signature
           = Return (σ', b') ->
           length signature = 64
           ∧ fa = in_address input
           ∧ b_signature b' = Some [signature]
           ∧ ∃ key, keys σ' !! b_key b' = Some key
                    ∧ k_publicKey key
                      = Some (TransactionBuilder.Buffer_from_key publicKey))
      ∧ (length signature = 64 -> fa = in_address input ->
         is_Some (keys σ !! b_key b) ->
         returns (TransactionBuilder.pkSignature σ b publicKey signature)
         = true).
Proof.
  intros I. split.
  { intros e D. unfold TransactionBuilder.pkSignature. now rewrite D. }
  intros fa D. unfold TransactionBuilder.pkSignature. rewrite I, D.
  outcome_simpl. repeat split.
  - intros L. apply Nat.eqb_neq in L. rewrite L. reflexivity.
  - intros L A. rewrite L. simpl.
    assert (String.eqb (in_address input) fa = false) as ->
      by (apply String.eqb_neq; congruence).
    reflexivity.
  - destruct (length signature =? 64)%nat eqn:L; [|discriminate].
    now apply Nat.eqb_eq in L.
  - destruct (length signature =? 64)%nat eqn:L; [|discriminate].
    simpl in *. destruct (String.eqb _ _) eqn:A in *; [|discriminate].
    apply String.eqb_eq in A. congruence.
  - destruct (length signature =? 64)%nat eqn:L; [|discriminate].
    simpl in *. destruct (String.eqb _ _) eqn:A in *; [|discriminate].
    destruct (keys σ !! b_key b); [|discriminate].
    simplify_eq. reflexivity.
  - destruct (length signature =? 64)%nat eqn:L; [|discriminate].
    simpl in *. destruct (String.eqb _ _) eqn:A in *; [|discriminate].
    destruct (keys σ !! b_key b) as [key|]; [|discriminate].
    simplify_eq. simpl. rewrite lookup_insert_eq. eexists; split; reflexivity.
  - intros L A [key K]. rewrite L, K, A. simpl.
    rewrite String.eqb_refl. reflexivity.
Qed.

(** C9: the amount test rejects exactly what is not a non-negative
    integer, its message notwithstanding, so zero passes it; an omitted
    amount is zero; [input] and [transfer] return for the amount zero
    whenever they return for any amount; and [build] returns for an input
    of amount zero that is converted. *)
Theorem zero_amount_accepted (σ : Store) (b : TransactionBuilder) :
  TransactionBuilder.amount_message
  = "Input amount must be a positive nonzero integer"
  ∧ (∀ x, rejected_amount x = false
          <-> ∃ q n, x = BFinite q ∧ (0 <= n)%Z ∧ Qeq q (inject_Z n))
  ∧ rejected_amount (BigNumber_of_Z 0) = false
  ∧ (∀ type_ fs,
       TransactionBuilder.input σ b type_ fs None
       = TransactionBuilder.input σ b type_ fs (Some (BigNumber_of_Z 0)))
  ∧ (∀ fa,
       TransactionBuilder.transfer σ b fa None
       = TransactionBuilder.transfer σ b fa (Some (BigNumber_of_Z 0)))
  ∧ (∀ type_ fs,
       b_signature b = None ->
       isValidPrivateAddress fs = true ∨ isValidPublicFctAddress fs = true ->
       ∃ σ' b' input,
         TransactionBuilder.input σ b type_ fs (Some (BigNumber_of_Z 0))
         = Return (σ', b')
         ∧ inputs σ' !! b_input b' = Some input
         ∧ in_amount input = BigNumber_of_Z 0)
  ∧ (∀ type_ fs amount,
       b_signature b = None ->
       isValidPrivateAddress fs = true ∨ isValidPublicFctAddress fs = true ->
       rejected_amount amount = true ->
       TransactionBuilder.input σ b type_ fs (Some amount)
       = Throw (Error TransactionBuilder.amount_message))
  ∧ (∀ fa transfers,
       b_conversion b = None -> b_signature b = None ->
       isValidPublicFctAddress fa = true ->
       transfers_of σ b = Some transfers ->
       ∃ σ',
         TransactionBuilder.transfer σ b fa (Some (BigNumber_of_Z 0))
         = Return (σ', b)
         ∧ transfers_of σ' b
           = Some (transfers ++ [{| tr_address := fa;
                                    tr_amount := BigNumber_of_Z 0 |}]))
  ∧ (∀ input type_ c key publicKey,
       inputs σ !! b_input b = Some input ->
       in_amount input = BigNumber_of_Z 0 ->
       in_type input = Some type_ ->
       b_conversion b = Some c -> c ≠ type_ ->
       transfers_of σ b = Some [] ->
       b_timestamp b = None -> b_signature b = None ->
       keys σ !! b_key b = Some key -> k_publicKey key = Some publicKey ->
       ∃ tx, TransactionBuilder.build σ b = Return tx
             ∧ Transaction.getInput σ tx = Some input).
Proof.
  split; [reflexivity|]. split; [exact rejected_amount_false|].
  split; [reflexivity|]. split; [reflexivity|]. split; [reflexivity|].
  repeat split.
  - intros type_ fs S V. unfold TransactionBuilder.input. rewrite S.
    outcome_simpl.
    destruct (isValidPrivateAddress fs) eqn:P; simpl.
    + destruct (keyPair_fromSeed (addressToKey fs)) as [pk sk]. simpl.
      eexists _, _, _. split; [reflexivity|]. simpl.
      rewrite lookup_insert_eq. split; reflexivity.
    + destruct V as [V|V]; [discriminate|]. rewrite V. simpl.
      eexists _, _, _. split; [reflexivity|]. simpl.
      rewrite lookup_insert_eq. split; reflexivity.
  - intros type_ fs amount S V R. unfold TransactionBuilder.input.
    rewrite S. outcome_simpl.
    destruct (isValidPrivateAddress fs) eqn:P; simpl.
    + rewrite R. reflexivity.
    + destruct V as [V|V]; [discriminate|]. rewrite V. simpl.
      rewrite R. reflexivity.
  - intros fa transfers C S V T. unfold TransactionBuilder.transfer.
    rewrite C, S, V. outcome_simpl. unfold transfers_of in *.
    destruct (b_transfers b) as [arr|]; [|discriminate]. simpl.
    rewrite T. eexists. split; [reflexivity|]. simpl.
    now rewrite lookup_insert_eq.
  - intros input type_ c key publicKey I A Ty C N T Ts S K P.
    unfold TransactionBuilder.build, Transaction.constructor,
      Transaction.getInput.
    rewrite I, T, C, Ts, S, K. outcome_simpl. rewrite P, A, Ty. simpl.
    rewrite bool_decide_eq_false_2 by congruence. simpl.
    eexists. split; [reflexivity|]. exact I.
Qed.

End TransactionBuilderProperties.


(** ** Signature verification *)

Section SignatureProperties.
Context `{Collaborators}.

(** C3, amended: [Transaction.validateSignature] throws "Transaction not
    signed" when the signature or the RCD is absent.  With both present it
    does what the verifier does for the signature and the RCD without its
    first byte: it returns [false], with no error of its own, for a
    signature the verifier rejects, and when the verifier itself throws,
    as the library does for a signature that is not 64 bytes long, it
    throws that error. *)
Theorem validateSignature_outcomes :
  (∀ (t : Transaction) hashed signature,
     signature = None ∨ t_rcd t = None ->
     Transaction.validateSignature t hashed signature = Throw not_signed_error)
  ∧ (∀ (t : Transaction) hashed sig rcd,
       t_rcd t = Some rcd ->
       Transaction.validateSignature t hashed (Some sig)
       = detached_verify hashed sig (drop 1 rcd))
  ∧ (∀ (t : Transaction) hashed sig rcd,
       t_rcd t = Some rcd ->
       detached_verify hashed sig (drop 1 rcd) = Return false ->
       Transaction.validateSignature t hashed (Some sig) = Return false)
  ∧ (∀ (t : Transaction) hashed sig rcd e,
       t_rcd t = Some rcd ->
       detached_verify hashed sig (drop 1 rcd) = Throw e ->
       Transaction.validateSignature t hashed (Some sig) = Throw e).
Proof.
  repeat split.
  - intros t hashed signature [-> | R]; unfold Transaction.validateSignature.
    + reflexivity.
    + rewrite R. now destruct signature.
  - intros t hashed sig rcd R. unfold Transaction.validateSignature.
    rewrite R. outcome_simpl.
    destruct (detached_verify hashed sig (drop 1 rcd)) as [[|]|]; reflexivity.
  - intros t hashed sig rcd R V. unfold Transaction.validateSignature.
    rewrite R. outcome_simpl. now rewrite V.
  - intros t hashed sig rcd e R V. unfold Transaction.validateSignature.
    rewrite R. outcome_simpl. now rewrite V.
Qed.

End SignatureProperties.

(** ** The batch builder *)

Section BatchProperties.
Context `{Collaborators} `{ContentEncoder}.

Lemma batch_constructor_Return (σ σ' : Store) (now : Z)
    (b : TransactionBatchBuilder) (tb : TransactionBatch) :
  TransactionBatch.constructor σ now b = Return (σ', tb) ->
  tb_transactions tb = bb_transactions b
  ∧ transaction_arrays σ' = transaction_arrays σ
  ∧ inputs σ' = inputs σ
  ∧ transfer_arrays σ' = transfer_arrays σ
  ∧ keys σ' = keys σ
  ∧ (∀ l, is_Some (signature_arrays σ !! l) ->
          signature_arrays σ' !! l = signature_arrays σ !! l).
Proof.
  unfold TransactionBatch.constructor. outcome_simpl. intros E.
  destruct (transaction_arrays σ !! bb_transactions b) as [txs|];
    [|discriminate].
  destruct (bb_signatures b) as [sigs|].
  - destruct (TransactionBatch.collect_rcds txs); [|discriminate].
    destruct (signature_arrays σ !! sigs); [|discriminate]. simpl in E.
    destruct (negb _); [discriminate|].
    destruct (bb_timestamp b); [|discriminate].
    simplify_eq. simpl. repeat split; reflexivity.
  - destruct (TransactionBatch.collect_contents σ txs); [|discriminate].
    destruct (TransactionBatch.sign_all _ _ _ _ _ _); [|discriminate].
    simplify_eq. simpl. repeat split; try reflexivity.
    intros l [x L]. apply lookup_insert_ne. intros <-.
    unfold new_loc in L.
    assert (In : fresh (dom (signature_arrays σ)) ∈ dom (signature_arrays σ))
      by (apply elem_of_dom; eauto).
    now apply is_fresh in In.
Qed.

(** C8: [build] on a builder whose transactions array is empty, as it is
    in a builder just constructed, throws "No Transactions Specified.";
    and the transactions array of a batch that [build] returns is not
    empty. *)
Theorem build_empty_batch (σ : Store) (now : Z) (b : TransactionBatchBuilder) :
  (transaction_arrays σ !! bb_transactions b = Some [] ->
   TransactionBatchBuilder.build σ now b = Throw empty_batch_error)
  ∧ (∀ σ0, TransactionBatchBuilder.constructor σ0 None = (σ, b) ->
           TransactionBatchBuilder.build σ now b = Throw empty_batch_error)
  ∧ (∀ σ' tb,
       TransactionBatchBuilder.build σ now b = Return (σ', tb) ->
       ∃ tx transactions,
         transaction_arrays σ' !! tb_transactions tb = Some (tx :: transactions)).
Proof.
  repeat split.
  - intros E. unfold TransactionBatchBuilder.build. rewrite E. reflexivity.
  - intros σ0 E. unfold TransactionBatchBuilder.constructor in E.
    injection E as <- <-. unfold TransactionBatchBuilder.build. simpl.
    rewrite lookup_insert_eq. reflexivity.
  - intros σ' tb E. unfold TransactionBatchBuilder.build in E.
    outcome_simpl.
    destruct (transaction_arrays σ !! bb_transactions b) as [[|tx txs]|] eqn:T;
      [discriminate| |discriminate].
    simpl in E.
    match type of E with
    | match ?m with _ => _ end = _ => destruct m; [|discriminate]
    end.
    match type of E with
    | match ?m with _ => _ end = _ => destruct m; [|discriminate]
    end.
    apply batch_constructor_Return in E as (-> & -> & _).
    eauto.
Qed.

(** C5: with no binding of [t] in the global scope, the [pkSignature] of
    the batch builder throws a [ReferenceError] for every builder,
    transaction and signature; it never returns, so it records no
    signature. *)
Theorem batch_pkSignature_throws (σ : Store) (b : TransactionBatchBuilder)
    (tx : Transaction) (signature : bytes) :
  TransactionBatchBuilder.pkSignature None σ b tx signature
  = Throw (ReferenceError "t is not defined")
  ∧ returns (TransactionBatchBuilder.pkSignature None σ b tx signature) = false.
Proof. split; reflexivity. Qed.

End BatchProperties.

(** ** What a call on a builder changes *)

Lemma new_loc_fresh {A} (m : gmap loc A) (l : loc) :
  is_Some (m !! l) -> l ≠ new_loc m.
Proof.
  intros S ->. apply elem_of_dom in S. now apply is_fresh in S.
Qed.

Section Frame.
Context `{Collaborators} `{ContentEncoder}.





End Frame.

(** * The model run on concrete calls *)

Module Cases.
Import Example.

(** C1, as stated, fails: with input 150 and a transfer of 151 to the input
    address itself the sum differs from the input amount, and [build]
    throws the self-transfer error, which its loop checks first, not the
    conservation error. *)
Lemma build_mismatch_without_conservation_error :
  ∃ σ b input transfers,
    Example.with_self_transfer = Return (σ, b)
    ∧ inputs σ !! b_input b = Some input
    ∧ transfers_of σ b = Some transfers
    ∧ transfers ≠ []
    ∧ isEqualTo (in_amount input) (sum_amounts transfers) = false
    ∧ TransactionBuilder.build σ b = Throw self_transfer_error
    ∧ TransactionBuilder.build σ b ≠ Throw conservation_error.
Proof.
  eexists _, _, _, _.
  split; [vm_compute; reflexivity|].
  split; [vm_compute; reflexivity|].
  split; [vm_compute; reflexivity|].
  split; [discriminate|].
  split; [vm_compute; reflexivity|].
  split; [vm_compute; reflexivity|].
  vm_compute. discriminate.
Qed.

(** [new TransactionBuilder().input("pFCT", "Fs1", 150).transfer("FA2", 151)]:
    the sum is one more than the input, and [build] throws the conservation
    error. *)
Lemma build_conservation_witness :
  ∃ σ b,
    ('(σ, b) ← Example.with_input;
     TransactionBuilder.transfer σ b "FA2" (Example.amount 151)) = Return (σ, b)
    ∧ TransactionBuilder.build σ b = Throw conservation_error.
Proof.
  eexists _, _. split; [vm_compute; reflexivity|].
  refine (proj2 (proj2 (build_conservation _ _ _ _ _ _ _) _) _ _ _ _).
  - vm_compute; reflexivity.
  - vm_compute; reflexivity.
  - discriminate.
  - vm_compute; reflexivity.
  - discriminate.
  - vm_compute; reflexivity.
  - intros c; vm_compute; discriminate.
  - constructor; [split; [vm_compute; reflexivity | discriminate] | constructor].
Defined.


(** C7, as stated, fails: for a signature of 63 bytes under a public key
    of one byte, [pkSignature] throws the error of the derivation of the
    address, which comes first, not the signature-length error. *)
Lemma pkSignature_short_signature_short_key :
  ∃ σ b,
    with_input = Return (σ, b)
    ∧ length (replicate 63 x00) ≠ 64
    ∧ TransactionBuilder.pkSignature σ b (HexKey "32") (replicate 63 x00)
      = Throw (Error "Key 2 is not 32 bytes long.")
    ∧ TransactionBuilder.pkSignature σ b (HexKey "32") (replicate 63 x00)
      ≠ Throw signature_length_error.
Proof.
  eexists _, _.
  split; [vm_compute; reflexivity|].
  split; [vm_compute; discriminate|].
  split; [vm_compute; reflexivity|].
  vm_compute. discriminate.
Qed.

(** [new TransactionBuilder().input("pFCT", "Fs1", 150)
      .pkSignature("3200...00", <64 bytes>)]: the 32-byte key of the
    address FA2 on the input address FA1. *)
Lemma pkSignature_checks_witness :
  ∃ σ b,
    with_input = Return (σ, b)
    ∧ keyToPublicFctAddress (key_of "2") = Return "FA2"
    ∧ TransactionBuilder.pkSignature σ b (HexKey (toString_hex (key_of "2")))
        (replicate 64 x00)
      = Throw (address_mismatch_error (key_of "2")).
Proof.
  eexists _, _. split; [vm_compute; reflexivity|].
  split; [vm_compute; reflexivity|].
  refine (proj1 (proj2 (proj2 (pkSignature_checks _ _
            (HexKey (toString_hex (key_of "2"))) _ _ _) "FA2" _)) _ _).
  - vm_compute; reflexivity.
  - vm_compute; reflexivity.
  - reflexivity.
  - vm_compute; discriminate.
Defined.

(** C3, as stated, fails: the transaction of [built] holds an RCD, and
    for a signature of 63 bytes its [validateSignature] neither returns
    [false] nor throws "Transaction not signed": the verifier throws "bad
    signature size".  A signature of 64 bytes that is not the one of the
    key gives [false]. *)
Lemma validateSignature_short_signature_throws :
  ∃ σ b tx rcd,
    built = Return (σ, b, tx)
    ∧ Transaction.getRCD tx = Some rcd
    ∧ Transaction.validateSignature tx (replicate 64 x00)
        (Some (replicate 63 x00))
      = Throw (Error "bad signature size")
    ∧ Transaction.validateSignature tx (replicate 64 x00)
        (Some (replicate 63 x00))
      ≠ Return false
    ∧ Transaction.validateSignature tx (replicate 64 x00)
        (Some (replicate 63 x00))
      ≠ Throw not_signed_error
    ∧ Transaction.validateSignature tx (replicate 64 x00)
        (Some (replicate 64 x00))
      = Return false.
Proof.
  eexists _, _, _, _.
  split; [vm_compute; reflexivity|].
  split; [vm_compute; reflexivity|].
  split; [vm_compute; reflexivity|].
  split; [vm_compute; discriminate|].
  split; [vm_compute; discriminate|].
  vm_compute. reflexivity.
Qed.

(** C4: [new TransactionBatchBuilder().transaction(tx).build()] for the
    transaction of [built], which holds an RCD and a secret key.  The
    batch constructor calls [getContent] on the member, which the
    [Transaction] class of 2/Transaction.js does not define, and [build]
    throws before any signature is made: there is no batch and no
    [_extIds]. *)
Theorem first_pass_build_throws :
  ∃ σ b key secretKey,
    batch_builder = Return (σ, b)
    ∧ transaction_arrays σ !! bb_transactions b
      = Some [Some built_transaction]
    ∧ bb_signatures b = None
    ∧ is_Some (Transaction.getRCD built_transaction)
    ∧ keys σ !! t_key built_transaction = Some key
    ∧ k_secretKey key = Some secretKey
    ∧ TransactionBatchBuilder.build σ 1572652800499 b
      = Throw (TypeError "tx.getContent is not a function").
Proof.
  eexists _, _, _, _.
  split; [vm_compute; reflexivity|].
  split; [vm_compute; reflexivity|].
  split; [vm_compute; reflexivity|].
  split; [vm_compute; eexists; reflexivity|].
  split; [vm_compute; reflexivity|].
  split; [vm_compute; reflexivity|].
  vm_compute. reflexivity.
Qed.



End Cases.

(** * Further properties *)

(** ** What the transaction builder accepts *)

Section BuilderAcceptance.
Context `{Collaborators}.

(** The transaction that [new Transaction(builder)] makes of a builder
    with the given transfers and public key. *)
Lemma constructor_Return (σ : Store) (b : TransactionBuilder)
    (transfers : list Transfer) (key : Key) (publicKey : bytes) :
  transfers_of σ b = Some transfers ->
  keys σ !! b_key b = Some key ->
  k_publicKey key = Some publicKey ->
  Transaction.constructor σ b
  = Return {| t_input := b_input b;
              t_conversion := b_conversion b;
              t_transfers := match transfers with
                             | [] => None
                             | _ :: _ => b_transfers b
                             end;
              t_metadata := b_metadata b;
              t_key := b_key b;
              t_rcd := Some (RCD_TYPE_1 ++ publicKey);
              t_timestamp := None;
              t_signature := None |}.
Proof.
  intros T K P. unfold Transaction.constructor. rewrite T, K.
  outcome_simpl. rewrite P. now destruct transfers.
Qed.

Lemma constructor_needs_public_key (σ : Store) (b : TransactionBuilder)
    (tx : Transaction) :
  Transaction.constructor σ b = Return tx ->
  ∃ key publicKey,
    keys σ !! b_key b = Some key ∧ k_publicKey key = Some publicKey.
Proof.
  unfold Transaction.constructor. outcome_simpl. intros E.
  destruct (transfers_of σ b); [|discriminate].
  destruct (keys σ !! b_key b) as [key|]; [|discriminate]. simpl in E.
  destruct (k_publicKey key) as [pk|] eqn:P; [|discriminate].
  exists key, pk. split; [reflexivity | exact P].
Qed.

(** What [build] has checked, and what it returns, when it returns. *)
Lemma build_inversion (σ : Store) (b : TransactionBuilder) (tx : Transaction) :
  TransactionBuilder.build σ b = Return tx ->
  ∃ input transfers key publicKey,
    inputs σ !! b_input b = Some input
    ∧ transfers_of σ b = Some transfers
    ∧ keys σ !! b_key b = Some key
    ∧ k_publicKey key = Some publicKey
    ∧ in_type input ≠ None
    ∧ rejected_amount (in_amount input) = false
    ∧ (b_conversion b = None -> transfers ≠ [])
    ∧ (∀ c, b_conversion b = Some c -> in_type input ≠ Some c)
    ∧ Forall (valid_transfer (in_address input)) transfers
    ∧ (transfers ≠ [] ->
       isEqualTo (in_amount input) (sum_amounts transfers) = true)
    ∧ (is_Some (b_timestamp b) -> is_Some (b_signature b))
    ∧ b_signature b ≠ Some []
    ∧ tx = {| t_input := b_input b;
              t_conversion := b_conversion b;
              t_transfers := match transfers with
                             | [] => None
                             | _ :: _ => b_transfers b
                             end;
              t_metadata := b_metadata b;
              t_key := b_key b;
              t_rcd := Some (RCD_TYPE_1 ++ publicKey);
              t_timestamp := None;
              t_signature := None |}.
Proof.
  intros E.
  destruct (build_Return _ _ _ E) as (input & ts & I & T & Ty & R & N & S & C).
  destruct (constructor_needs_public_key _ _ _ C) as (key & pk & K & P).
  exists input, ts, key, pk.
  rewrite (constructor_Return _ _ _ _ _ T K P) in C.
  unfold TransactionBuilder.build in E. rewrite I, T in E. outcome_simpl.
  rewrite (bool_decide_eq_false_2 _ Ty), R in E. simpl in E.
  repeat split; try assumption.
  + intros c Ec Eq. rewrite Ec in E. simpl in E.
    rewrite (bool_decide_eq_true_2 _ Eq) in E. discriminate.
  + destruct ts as [|t ts]; [constructor|]. now apply S.
  + intros Ne. now apply S.
  + intros [ts' Ts]. rewrite Ts in E.
    destruct (b_signature b); [eauto|]. exfalso.
    repeat step E.
  + intros Sg. rewrite Sg in E. repeat step E.
  + now injection C.
Qed.

(** [build] returns whenever all of its checks pass. *)
Lemma build_accepts (σ : Store) (b : TransactionBuilder) (tx : Transaction) :
  (∃ input transfers key publicKey,
    inputs σ !! b_input b = Some input
    ∧ transfers_of σ b = Some transfers
    ∧ keys σ !! b_key b = Some key
    ∧ k_publicKey key = Some publicKey
    ∧ in_type input ≠ None
    ∧ rejected_amount (in_amount input) = false
    ∧ (b_conversion b = None -> transfers ≠ [])
    ∧ (∀ c, b_conversion b = Some c -> in_type input ≠ Some c)
    ∧ Forall (valid_transfer (in_address input)) transfers
    ∧ (transfers ≠ [] ->
       isEqualTo (in_amount input) (sum_amounts transfers) = true)
    ∧ (is_Some (b_timestamp b) -> is_Some (b_signature b))
    ∧ b_signature b ≠ Some []
    ∧ tx = {| t_input := b_input b;
              t_conversion := b_conversion b;
              t_transfers := match transfers with
                             | [] => None
                             | _ :: _ => b_transfers b
                             end;
              t_metadata := b_metadata b;
              t_key := b_key b;
              t_rcd := Some (RCD_TYPE_1 ++ publicKey);
              t_timestamp := None;
              t_signature := None |}) ->
  TransactionBuilder.build σ b = Return tx.
Proof.
  intros (input & ts & key & pk & I & T & K & P & Ty & R & N & Cv & F & S
          & Tm & Sg & ->).
  unfold TransactionBuilder.build. rewrite I, T. outcome_simpl.
  rewrite (bool_decide_eq_false_2 _ Ty), R. simpl.
  assert (E1 : match b_conversion b with
               | Some _ => Return false
               | None => Return (length ts =? 0)%nat
               end = Return false).
  { destruct (b_conversion b); [reflexivity|].
    destruct ts; [now specialize (N eq_refl)|reflexivity]. }
  rewrite E1. simpl.
  assert (E2 : match b_conversion b with
               | Some c => bool_decide (in_type input = Some c)
               | None => false
               end = false).
  { destruct (b_conversion b) as [c|] eqn:Ec; [|reflexivity].
    apply bool_decide_eq_false_2. now apply Cv. }
  rewrite E2. simpl.
  assert (E3 : (if (0 <? length ts)%nat
                then match TransactionBuilder.check_transfers
                             (in_address input) ts (BigNumber_of_Z 0) with
                     | Return sum =>
                         if negb (isEqualTo (in_amount input) sum)
                         then Throw conservation_error
                         else Return tt
                     | Throw e => Throw e
                     end
                else Return tt) = Return tt).
  { destruct ts as [|t ts']; [reflexivity|].
    change (0 <? length (t :: ts'))%nat with true. cbv iota.
    rewrite (check_transfers_valid _ _ _ F).
    fold (sum_amounts (t :: ts')). now rewrite S. }
  unfold conservation_error in E3. rewrite E3. simpl.
  assert (E4 : match b_timestamp b with
               | Some _ => match b_signature b with
                           | Some _ => false
                           | None => true
                           end
               | None => false
               end = false).
  { destruct (b_timestamp b); [|reflexivity].
    destruct Tm as [s ->]; eauto. }
  rewrite E4. simpl.
  assert (E5 : match b_signature b with
               | Some [] => true
               | _ => false
               end = false).
  { destruct (b_signature b) as [[|]|]; congruence. }
  rewrite E5. simpl.
  apply (constructor_Return _ _ _ _ _ T K P).
Qed.

(** X1: [build] returns exactly when the input type is defined, the input
    amount is a non-negative integer, a conversion is set or there is a
    transfer, the conversion is not the input type, every transfer has a
    non-negative integer amount and an address other than the input
    address, the transfers (when there are any) sum to the input amount, a
    timestamp comes with a signature, the signatures array is not empty,
    and the key object has a public key; and the transaction it returns
    holds the builder's input object, conversion, metadata and key object,
    the transfers array when it has an element, and the RCD made of the
    type byte and the public key. *)
Theorem build_returns_exactly (σ : Store) (b : TransactionBuilder)
    (tx : Transaction) :
  TransactionBuilder.build σ b = Return tx
  <-> ∃ input transfers key publicKey,
        inputs σ !! b_input b = Some input
        ∧ transfers_of σ b = Some transfers
        ∧ keys σ !! b_key b = Some key
        ∧ k_publicKey key = Some publicKey
        ∧ in_type input ≠ None
        ∧ rejected_amount (in_amount input) = false
        ∧ (b_conversion b = None -> transfers ≠ [])
        ∧ (∀ c, b_conversion b = Some c -> in_type input ≠ Some c)
        ∧ Forall (valid_transfer (in_address input)) transfers
        ∧ (transfers ≠ [] ->
           isEqualTo (in_amount input) (sum_amounts transfers) = true)
        ∧ (is_Some (b_timestamp b) -> is_Some (b_signature b))
        ∧ b_signature b ≠ Some []
        ∧ tx = {| t_input := b_input b;
                  t_conversion := b_conversion b;
                  t_transfers := match transfers with
                                 | [] => None
                                 | _ :: _ => b_transfers b
                                 end;
                  t_metadata := b_metadata b;
                  t_key := b_key b;
                  t_rcd := Some (RCD_TYPE_1 ++ publicKey);
                  t_timestamp := None;
                  t_signature := None |}.
Proof.
  split; [apply build_inversion | apply build_accepts].
Qed.

End BuilderAcceptance.

(** ** Keys, signatures and the transactions built *)

Section BuilderKeys.
Context `{Collaborators}.

(** What [input] has checked and written, when it returns. *)
Lemma input_Return (σ σ' : Store) (b b' : TransactionBuilder)
    (type_ : option string) (fs : string) (amount_ : option BigNumber) :
  TransactionBuilder.input σ b type_ fs amount_ = Return (σ', b') ->
  b_signature b = None
  ∧ rejected_amount (default (BigNumber_of_Z 0) amount_) = false
  ∧ (isValidPrivateAddress fs = true ∨ isValidPublicFctAddress fs = true)
  ∧ b' = TransactionBuilder.with_key b (new_loc (keys σ))
  ∧ inputs σ'
    = <[b_input b :=
          {| in_address := if isValidPrivateAddress fs
                           then getPublicAddress fs else fs;
             in_amount := default (BigNumber_of_Z 0) amount_;
             in_type := type_ |}]> (inputs σ)
  ∧ keys σ'
    = <[new_loc (keys σ) :=
          if isValidPrivateAddress fs
          then {| k_pubaddr := None;
                  k_publicKey := Some (keyPair_fromSeed (addressToKey fs)).1;
                  k_secretKey := Some (keyPair_fromSeed (addressToKey fs)).2 |}
          else {| k_pubaddr := Some fs;
                  k_publicKey := None;
                  k_secretKey := None |}]> (keys σ)
  ∧ transfer_arrays σ' = transfer_arrays σ
  ∧ transaction_arrays σ' = transaction_arrays σ
  ∧ signature_arrays σ' = signature_arrays σ.
Proof.
  unfold TransactionBuilder.input. outcome_simpl. intros E.
  destruct (b_signature b); [discriminate|]. simpl in E.
  replace (match amount_ with
           | Some a => a
           | None => BigNumber_of_Z 0
           end) with (default (BigNumber_of_Z 0) amount_) in E
    by now destruct amount_.
  destruct (isValidPrivateAddress fs).
  - destruct (rejected_amount _); [discriminate|].
    destruct (keyPair_fromSeed (addressToKey fs)) as [pk sk]. simpl in E.
    injection E as <- <-. simpl. repeat split; auto.
  - destruct (isValidPublicFctAddress fs); [|discriminate]. simpl in E.
    destruct (rejected_amount _); [discriminate|]. simpl in E.
    injection E as <- <-. simpl. repeat split; auto.
Qed.

(** X2: [input] returns exactly when the builder has no signature, the
    address is a valid private or public address and the amount is a
    non-negative integer, whatever input was set before: a second [input]
    is not refused.  It replaces the three properties of the input object
    and gives the builder a new key object; every other object, the
    previous key object among them, is left as it was. *)
Theorem input_replaces (σ : Store) (b : TransactionBuilder)
    (type_ : option string) (fs : string) (amount_ : option BigNumber) :
  (returns (TransactionBuilder.input σ b type_ fs amount_) = true
   <-> b_signature b = None
       ∧ (isValidPrivateAddress fs = true ∨ isValidPublicFctAddress fs = true)
       ∧ rejected_amount (default (BigNumber_of_Z 0) amount_) = false)
  ∧ ∀ σ' b',
      TransactionBuilder.input σ b type_ fs amount_ = Return (σ', b') ->
      b_input b' = b_input b
      ∧ inputs σ' !! b_input b'
        = Some {| in_address := if isValidPrivateAddress fs
                                then getPublicAddress fs else fs;
                  in_amount := default (BigNumber_of_Z 0) amount_;
                  in_type := type_ |}
      ∧ keys σ !! b_key b' = None
      ∧ is_Some (keys σ' !! b_key b')
      ∧ (∀ l, l ≠ b_input b -> inputs σ' !! l = inputs σ !! l)
      ∧ (∀ l, is_Some (keys σ !! l) -> keys σ' !! l = keys σ !! l).
Proof.
  split.
  - split.
    + destruct (TransactionBuilder.input σ b type_ fs amount_) as [[σ' b']|]
        eqn:E; [|discriminate].
      intros _. apply input_Return in E as (S & R & V & _). auto.
    + intros (S & V & R). unfold TransactionBuilder.input. rewrite S.
      outcome_simpl.
      replace (match amount_ with
               | Some a => a
               | None => BigNumber_of_Z 0
               end) with (default (BigNumber_of_Z 0) amount_)
        by now destruct amount_.
      rewrite R. destruct (isValidPrivateAddress fs).
      * destruct (keyPair_fromSeed _). reflexivity.
      * destruct V as [V|V]; [discriminate|]. rewrite V. reflexivity.
  - intros σ' b' E.
    apply input_Return in E as (_ & _ & _ & -> & I & K & _). simpl.
    rewrite I, K. repeat split.
    + apply lookup_insert_eq.
    + apply not_elem_of_dom, is_fresh.
    + rewrite lookup_insert_eq. eauto.
    + intros l N. now apply lookup_insert_ne.
    + intros l S. apply lookup_insert_ne. symmetry. now apply new_loc_fresh.
Qed.

(** X3: [input] on a builder after its [build] rewrites the input object
    that the built transaction holds, and leaves the key object and the
    RCD of that transaction as they were: the transaction then reads the
    address, amount and type of the later call under the key of the
    earlier one. *)
Theorem input_after_build_rewrites_input (σ σ' : Store)
    (b b' : TransactionBuilder) (tx : Transaction)
    (type_ : option string) (fs : string) (amount_ : option BigNumber) :
  TransactionBuilder.build σ b = Return tx ->
  TransactionBuilder.input σ b type_ fs amount_ = Return (σ', b') ->
  Transaction.getInput σ' tx
  = Some {| in_address := if isValidPrivateAddress fs
                          then getPublicAddress fs else fs;
            in_amount := default (BigNumber_of_Z 0) amount_;
            in_type := type_ |}
  ∧ keys σ' !! t_key tx = keys σ !! t_key tx
  ∧ Transaction.getTransfers σ' tx = Transaction.getTransfers σ tx
  ∧ TransactionBuilder.build σ' b' ≠ Return tx.
Proof.
  intros B E.
  apply build_inversion in B
    as (input & ts & key & pk & I & T & K & P & _ & _ & _ & _ & _ & _ & _ & _
        & ->).
  apply input_Return in E as (_ & _ & _ & -> & I' & K' & Tr & _).
  unfold Transaction.getInput, Transaction.getTransfers. simpl.
  rewrite I', K', Tr. repeat split.
  - apply lookup_insert_eq.
  - apply lookup_insert_ne. symmetry. apply new_loc_fresh. eauto.
  - intros B'. apply build_inversion in B'
      as (input' & ts' & key' & pk' & _ & _ & _ & _ & _ & _ & _ & _ & _ & _
          & _ & _ & Eq).
    apply (f_equal t_key) in Eq. simpl in Eq.
    revert Eq. apply new_loc_fresh. eauto.
Qed.

(** The calls other than [input] and [pkSignature] leave the keys and
    the input objects as they are. *)
Lemma call_keeps_key (σ σ' : Store) (b b' : TransactionBuilder)
    (c : BuilderCall) :
  keeps_key c ->
  call σ b c = Return (σ', b') ->
  b_key b' = b_key b ∧ keys σ' = keys σ
  ∧ b_input b' = b_input b ∧ inputs σ' = inputs σ.
Proof.
  intros Kc E.
  destruct c as [type_ fs amount_|fa amount|cv|m|publicKey signature|];
    simpl in *; try contradiction.
  - apply transfer_Return in E
      as (arr & old & amt & _ & _ & _ & _ & _ & _ & _ & -> & ->).
    repeat split.
  - unfold TransactionBuilder.conversion in E. outcome_simpl.
    repeat step E. injection E as <- <-. repeat split.
  - unfold TransactionBuilder.metadata in E. outcome_simpl.
    repeat step E. injection E as <- <-. repeat split.
  - outcome_simpl. destruct (TransactionBuilder.build σ b); [|discriminate].
    injection E as <- <-. repeat split.
Qed.

Lemma calls_keep_key (σ σ' : Store) (b b' : TransactionBuilder)
    (cs : list BuilderCall) :
  Forall keeps_key cs ->
  calls σ b cs = Return (σ', b') ->
  b_key b' = b_key b ∧ keys σ' = keys σ
  ∧ b_input b' = b_input b ∧ inputs σ' = inputs σ.
Proof.
  intros F. revert σ b. induction F as [|c cs Kc F IH]; intros σ b E.
  - injection E as <- <-. repeat split.
  - simpl in E. outcome_simpl.
    destruct (call σ b c) as [[σ1 b1]|] eqn:C; [|discriminate].
    apply (call_keeps_key _ _ _ _ _ Kc) in C as (C1 & C2 & C3 & C4).
    apply IH in E as (E1 & E2 & E3 & E4).
    rewrite E1, E2, E3, E4. auto.
Qed.

(** X4: a builder whose input was given as a public address cannot
    [build] until [pkSignature] or another [input] gives it a key:
    whatever transfers, conversion or metadata are set, [build] throws,
    since the key object has no public key to make the RCD of. *)
Theorem public_address_input_cannot_build (σ σ1 σ2 : Store)
    (b b1 b2 : TransactionBuilder) (type_ : option string) (fa : string)
    (amount_ : option BigNumber) (cs : list BuilderCall) :
  isValidPrivateAddress fa = false ->
  TransactionBuilder.input σ b type_ fa amount_ = Return (σ1, b1) ->
  Forall keeps_key cs ->
  calls σ1 b1 cs = Return (σ2, b2) ->
  throws (TransactionBuilder.build σ2 b2) = true.
Proof.
  intros P E F C.
  apply input_Return in E as (_ & _ & _ & -> & _ & K & _).
  apply (calls_keep_key _ _ _ _ _ F) in C as (Bk & Ks & _).
  destruct (TransactionBuilder.build σ2 b2) as [tx|] eqn:B; [|reflexivity].
  apply build_inversion in B as (input & ts & key & pk & _ & _ & Kb & Pk & _).
  rewrite Bk, Ks, K in Kb. simpl in Kb. rewrite lookup_insert_eq, P in Kb.
  injection Kb as <-. discriminate.
Qed.

(** X5: a transaction built after [input] with a private address has the
    RCD made of the type byte and the public key of that address, signs
    with its secret key, and has the public address as input address,
    whatever transfers, conversion or metadata were set in between. *)
Theorem private_address_input_signs (σ σ1 σ2 : Store)
    (b b1 b2 : TransactionBuilder) (type_ : option string) (fs : string)
    (amount_ : option BigNumber) (cs : list BuilderCall) (tx : Transaction)
    (hashed : bytes) :
  isValidPrivateAddress fs = true ->
  TransactionBuilder.input σ b type_ fs amount_ = Return (σ1, b1) ->
  Forall keeps_key cs ->
  calls σ1 b1 cs = Return (σ2, b2) ->
  TransactionBuilder.build σ2 b2 = Return tx ->
  Transaction.getRCD tx
  = Some (RCD_TYPE_1 ++ (keyPair_fromSeed (addressToKey fs)).1)
  ∧ Transaction.sign σ2 tx hashed
    = Return (Some (detached hashed (keyPair_fromSeed (addressToKey fs)).2))
  ∧ in_address <$> Transaction.getInput σ2 tx = Some (getPublicAddress fs).
Proof.
  intros P E F C B.
  apply input_Return in E as (_ & _ & _ & -> & I & K & _).
  apply (calls_keep_key _ _ _ _ _ F) in C as (Bk & Ks & Bi & Is).
  apply build_inversion in B
    as (input & ts & key & pk & Ib & _ & Kb & Pk & _ & _ & _ & _ & _ & _ & _
        & _ & ->).
  unfold Transaction.getRCD, Transaction.sign, Transaction.getInput. simpl.
  rewrite Kb, Ib. outcome_simpl.
  rewrite Bk, Ks, K in Kb. simpl in Kb. rewrite lookup_insert_eq, P in Kb.
  injection Kb as <-. simpl in Pk. injection Pk as <-.
  rewrite Bi, Is, I in Ib. simpl in Ib. rewrite lookup_insert_eq, P in Ib.
  injection Ib as <-. repeat split.
Qed.

(** X6: a transaction built after [pkSignature] has the RCD made of the
    type byte and the public key that was supplied, the address derived
    from that key is the input address of the transaction, and the
    signature was 64 bytes long; the transaction itself does not hold the
    signature. *)
Theorem externally_signed_transaction (σ σ1 : Store)
    (b b1 : TransactionBuilder) (publicKey : PublicKeyArgument)
    (signature : bytes) (tx : Transaction) :
  TransactionBuilder.pkSignature σ b publicKey signature = Return (σ1, b1) ->
  TransactionBuilder.build σ1 b1 = Return tx ->
  Transaction.getRCD tx
  = Some (RCD_TYPE_1 ++ TransactionBuilder.Buffer_from_key publicKey)
  ∧ (∃ input,
       Transaction.getInput σ1 tx = Some input
       ∧ keyToPublicFctAddress (TransactionBuilder.Buffer_from_key publicKey)
         = Return (in_address input))
  ∧ length signature = 64
  ∧ t_signature tx = None.
Proof.
  intros E B. unfold TransactionBuilder.pkSignature in E. outcome_simpl.
  destruct (keyToPublicFctAddress _) as [fa|] eqn:D; [|discriminate].
  simpl in E.
  destruct (length signature =? 64)%nat eqn:L; [|discriminate]. simpl in E.
  destruct (inputs σ !! b_input b) as [input|] eqn:I; [|discriminate].
  simpl in E.
  destruct (String.eqb (in_address input) fa) eqn:A; [|discriminate].
  destruct (keys σ !! b_key b) as [key|] eqn:K; [|discriminate].
  injection E as <- <-.
  apply build_inversion in B
    as (input' & ts & key' & pk & Ib & _ & Kb & Pk & _ & _ & _ & _ & _ & _ & _
        & _ & ->).
  simpl in *. rewrite lookup_insert_eq in Kb. injection Kb as <-.
  simpl in Pk. injection Pk as <-.
  rewrite I in Ib. injection Ib as <-.
  unfold Transaction.getRCD, Transaction.getInput. simpl.
  repeat split.
  - exists input. split; [exact I|]. apply String.eqb_eq in A. now subst.
  - now apply Nat.eqb_eq.
Qed.

(** X7: signing and verifying agree.  When the type byte is one byte long
    and the verifier accepts, under the public key of the builder's key
    object, the signature that its secret key gives for a hash, then the
    transaction built signs that hash and validates its own signature. *)
Theorem sign_then_validate (σ : Store) (b : TransactionBuilder)
    (tx : Transaction) (key : Key) (publicKey secretKey hashed : bytes) :
  length RCD_TYPE_1 = 1 ->
  TransactionBuilder.build σ b = Return tx ->
  keys σ !! b_key b = Some key ->
  k_publicKey key = Some publicKey ->
  k_secretKey key = Some secretKey ->
  detached_verify hashed (detached hashed secretKey) publicKey = Return true ->
  Transaction.sign σ tx hashed = Return (Some (detached hashed secretKey))
  ∧ Transaction.validateSignature tx hashed
      (Some (detached hashed secretKey)) = Return true.
Proof.
  intros L B K P S V.
  apply build_inversion in B
    as (input & ts & key' & pk & _ & _ & Kb & Pk & _ & _ & _ & _ & _ & _ & _
        & _ & ->).
  rewrite K in Kb. injection Kb as <-. rewrite P in Pk. injection Pk as <-.
  split.
  - unfold Transaction.sign. simpl. rewrite K. outcome_simpl.
    now rewrite S.
  - unfold Transaction.validateSignature. cbn [t_rcd].
    rewrite (drop_app_length' _ _ 1) by (symmetry; exact L).
    now rewrite V.
Qed.

End BuilderKeys.

(** ** Transfers, conversions and seeded builders *)

Section BuilderTransfers.
Context `{Collaborators} `{ContentEncoder}.

(** X8: [transfer] calls accumulate.  On a builder without conversion
    and signature, a sequence of [transfer] calls with valid public
    addresses and non-negative integer amounts returns, and appends one
    transfer for each call, in call order, to the transfers already
    there; inputs and keys are left alone. *)
Theorem transfers_accumulate (σ : Store) (b : TransactionBuilder)
    (old : list Transfer) (ps : list (string * option BigNumber)) :
  transfers_of σ b = Some old ->
  b_conversion b = None ->
  b_signature b = None ->
  Forall (λ p, isValidPublicFctAddress p.1 = true
               ∧ rejected_amount (default (BigNumber_of_Z 0) p.2) = false)
    ps ->
  ∃ σ',
    calls σ b (map (λ p, CallTransfer p.1 p.2) ps) = Return (σ', b)
    ∧ transfers_of σ' b
      = Some (old ++ map (λ p, {| tr_address := p.1;
                                 tr_amount := default (BigNumber_of_Z 0) p.2 |})
                      ps)
    ∧ inputs σ' = inputs σ
    ∧ keys σ' = keys σ.
Proof.
  intros T C S F. revert σ old T.
  induction F as [|[fa amount] ps [V R] F IH]; intros σ old T.
  - exists σ. simpl. rewrite app_nil_r. auto.
  - unfold transfers_of in T.
    destruct (b_transfers b) as [arr|] eqn:A; [|discriminate].
    simpl in V, R.
    destruct (IH (set_transfer_arrays σ
                    (<[arr := old ++ [{| tr_address := fa;
                                         tr_amount := default (BigNumber_of_Z 0)
                                                        amount |}]]>
                       (transfer_arrays σ)))
                 (old ++ [{| tr_address := fa;
                             tr_amount := default (BigNumber_of_Z 0) amount |}]))
      as (σ' & Cs & T' & I' & K').
    { unfold transfers_of. rewrite A. simpl. apply lookup_insert_eq. }
    exists σ'. simpl. unfold TransactionBuilder.transfer.
    rewrite C, S, V, A. outcome_simpl.
    replace (match amount with
             | Some a => a
             | None => BigNumber_of_Z 0
             end) with (default (BigNumber_of_Z 0) amount)
      by now destruct amount.
    rewrite R, T. simpl. rewrite Cs. split; [reflexivity|].
    rewrite T', <- app_assoc. auto.
Qed.

(** What every call keeps when the builder has no transfers array. *)
Lemma call_keeps_no_transfers (σ σ' : Store) (b b' : TransactionBuilder)
    (c : BuilderCall) :
  b_transfers b = None ->
  call σ b c = Return (σ', b') ->
  b_transfers b' = None.
Proof.
  intros N E.
  destruct c as [type_ fs amount_|fa amount|cv|m|publicKey signature|];
    simpl in E.
  - apply input_Return in E as (_ & _ & _ & -> & _). exact N.
  - apply transfer_Return in E as (arr & old & amt & A & _).
    rewrite N in A. discriminate.
  - unfold TransactionBuilder.conversion, transfers_of in E.
    rewrite N in E. discriminate.
  - unfold TransactionBuilder.metadata in E. outcome_simpl.
    repeat step E; injection E as <- <-; exact N.
  - unfold TransactionBuilder.pkSignature in E. outcome_simpl.
    repeat step E; injection E as <- <-; exact N.
  - outcome_simpl. destruct (TransactionBuilder.build σ b); [|discriminate].
    injection E as <- <-. exact N.
Qed.

Lemma calls_keep_no_transfers (σ σ' : Store) (b b' : TransactionBuilder)
    (cs : list BuilderCall) :
  b_transfers b = None ->
  calls σ b cs = Return (σ', b') ->
  b_transfers b' = None.
Proof.
  revert σ b. induction cs as [|c cs IH]; intros σ b N E.
  - injection E as <- <-. exact N.
  - simpl in E. outcome_simpl.
    destruct (call σ b c) as [[σ1 b1]|] eqn:C; [|discriminate].
    apply (IH σ1 b1); [|exact E].
    exact (call_keeps_no_transfers _ _ _ _ _ N C).
Qed.

(** X9: a transaction built with a conversion and no transfer cannot be
    built again.  The builder seeded with it has no transfers array, no
    call gives it one, and [build] throws on the length of the missing
    array, after whatever sequence of calls. *)
Theorem conversion_transaction_cannot_be_rebuilt (σ σ0 σ' : Store)
    (b b0 b' : TransactionBuilder) (tx : Transaction)
    (cs : list BuilderCall) :
  TransactionBuilder.build σ b = Return tx ->
  transfers_of σ b = Some [] ->
  TransactionBuilder.constructor σ (FromTransaction tx) = Return (σ0, b0) ->
  calls σ0 b0 cs = Return (σ', b') ->
  is_Some (Transaction.getConversion tx)
  ∧ throws (TransactionBuilder.build σ' b') = true.
Proof.
  intros B T S C.
  apply build_inversion in B
    as (input & ts & key & pk & _ & T' & _ & _ & _ & _ & Cv & _ & _ & _ & _
        & _ & ->).
  rewrite T in T'. injection T' as <-. simpl in S. injection S as <- <-.
  split.
  - unfold Transaction.getConversion. simpl.
    destruct (b_conversion b); [eauto|]. now destruct Cv.
  - assert (N : b_transfers b' = None).
    { eapply calls_keep_no_transfers; [|exact C]. reflexivity. }
    unfold TransactionBuilder.build, transfers_of. rewrite N.
    outcome_simpl.
    destruct (inputs σ' !! b_input b'); [|reflexivity]. simpl.
    destruct (bool_decide _); [reflexivity|]. simpl.
    destruct (rejected_amount _); [reflexivity|]. simpl.
    destruct (b_conversion b'); [|reflexivity]. simpl.
    destruct (bool_decide _); reflexivity.
Qed.

(** X10: a built transaction seeds a builder that holds neither signature
    nor timestamp, also when the first builder had a signature from
    [pkSignature]: the guards of [input], [transfer], [conversion] and
    [metadata] against a previously assembled transaction see none.  When
    the transaction has transfers, building again at once returns the same
    transaction. *)
Theorem built_transaction_seeds_unsigned_builder (σ : Store)
    (b : TransactionBuilder) (tx : Transaction) :
  TransactionBuilder.build σ b = Return tx ->
  ∃ b0,
    TransactionBuilder.constructor σ (FromTransaction tx) = Return (σ, b0)
    ∧ b_signature b0 = None
    ∧ b_timestamp b0 = None
    ∧ (is_Some (Transaction.getTransfers σ tx) ->
       TransactionBuilder.build σ b0 = Return tx).
Proof.
  intros B.
  apply build_inversion in B
    as (input & ts & key & pk & I & T & K & P & Ty & R & Nc & Cv & V & Sm & _
        & _ & ->).
  eexists. split; [reflexivity|]. simpl. repeat split.
  unfold Transaction.getTransfers. simpl. intros G.
  destruct ts as [|t ts]; [destruct G; discriminate|].
  apply build_accepts.
  exists input, (t :: ts), key, pk. simpl.
  repeat split; auto; try discriminate.
  intros [x X]. discriminate.
Qed.

Lemma hex_digits_of_byte (x : byte) :
  hex_value (hex_digit (N_of_ascii (ascii_of_byte x) / 16)) 
  = Some (N_of_ascii (ascii_of_byte x) / 16)%N
  ∧ hex_value (hex_digit (N_of_ascii (ascii_of_byte x) mod 16))
    = Some (N_of_ascii (ascii_of_byte x) mod 16)%N
  ∧ byte_of_ascii
      (ascii_of_N (16 * (N_of_ascii (ascii_of_byte x) / 16)
                   + N_of_ascii (ascii_of_byte x) mod 16)) = x.
Proof. destruct x; vm_compute; auto. Qed.

Lemma Buffer_from_hex_toString_hex (pk : bytes) :
  Buffer_from_hex (toString_hex pk) = pk.
Proof.
  induction pk as [|x pk IH]; [reflexivity|].
  destruct (hex_digits_of_byte x) as (Hh & Hl & Hx).
  cbn [toString_hex Buffer_from_hex]. rewrite Hh, Hl, Hx, IH. reflexivity.
Qed.

(** X11: a public key can be given to [pkSignature] as the bytes or as
    their hexadecimal string, to the same effect: decoding the
    hexadecimal form of a buffer gives the buffer back. *)
Theorem pkSignature_hex_or_bytes (σ : Store) (b : TransactionBuilder)
    (pk signature : bytes) :
  Buffer_from_hex (toString_hex pk) = pk
  ∧ TransactionBuilder.pkSignature σ b (HexKey (toString_hex pk)) signature
    = TransactionBuilder.pkSignature σ b (RawKey pk) signature.
Proof.
  split; [apply Buffer_from_hex_toString_hex|].
  unfold TransactionBuilder.pkSignature, TransactionBuilder.Buffer_from_key.
  now rewrite Buffer_from_hex_toString_hex.
Qed.

Lemma call_keeps_conversion_without_transfers (σ σ' : Store)
    (b b' : TransactionBuilder) (c : BuilderCall) :
  conversion_without_transfers σ b ->
  call σ b c = Return (σ', b') ->
  conversion_without_transfers σ' b'.
Proof.
  intros (ts & T & Cv) E.
  destruct c as [type_ fs amount_|fa amount|cv|m|publicKey signature|];
    simpl in E.
  - apply input_Return in E as (_ & _ & _ & -> & _ & _ & Tr & _).
    exists ts. split; [|exact Cv].
    unfold transfers_of in *. simpl. now rewrite Tr.
  - apply transfer_Return in E
      as (arr & old & amt & A & _ & _ & _ & _ & C & _ & -> & ->).
    eexists. split.
    + unfold transfers_of. rewrite A. simpl. apply lookup_insert_eq.
    + rewrite C. intros [x X]. discriminate.
  - unfold TransactionBuilder.conversion in E. rewrite T in E.
    outcome_simpl.
    destruct ts as [|t ts]; [|discriminate]. simpl in E.
    destruct (b_signature b); [discriminate|]. injection E as <- <-.
    exists []. split; [exact T|reflexivity].
  - unfold TransactionBuilder.metadata in E. outcome_simpl.
    repeat step E; injection E as <- <-; exists ts; split; assumption.
  - unfold TransactionBuilder.pkSignature in E. outcome_simpl.
    repeat step E; injection E as <- <-; exists ts; split; assumption.
  - outcome_simpl. destruct (TransactionBuilder.build σ b); [|discriminate].
    injection E as <- <-. exists ts; split; assumption.
Qed.

(** X12: a transaction built by a builder that started empty has either
    a conversion and no transfers, or transfers and no conversion,
    whatever calls were made on the builder in between. *)
Theorem built_with_conversion_or_transfers (σ σ0 σ' : Store)
    (b0 b' : TransactionBuilder) (cs : list BuilderCall) (tx : Transaction) :
  TransactionBuilder.constructor σ NoArgument = Return (σ0, b0) ->
  calls σ0 b0 cs = Return (σ', b') ->
  TransactionBuilder.build σ' b' = Return tx ->
  (is_Some (Transaction.getConversion tx)
   ∧ Transaction.getTransfers σ' tx = None)
  ∨ (Transaction.getConversion tx = None
     ∧ ∃ t ts, Transaction.getTransfers σ' tx = Some (t :: ts)).
Proof.
  intros S C B.
  assert (Inv : conversion_without_transfers σ' b').
  { assert (I0 : conversion_without_transfers σ0 b0).
    { simpl in S. injection S as <- <-. exists []. split.
      - unfold transfers_of. simpl. apply lookup_insert_eq.
      - reflexivity. }
    clear S B. revert σ0 b0 I0 C.
    induction cs as [|c cs IH]; intros σ0 b0 I0 C.
    - injection C as <- <-. exact I0.
    - simpl in C. outcome_simpl.
      destruct (call σ0 b0 c) as [[σ1 b1]|] eqn:E; [|discriminate].
      apply (IH σ1 b1); [|exact C].
      exact (call_keeps_conversion_without_transfers _ _ _ _ _ I0 E). }
  destruct Inv as (ts & T & Cv).
  apply build_inversion in B
    as (input & ts' & key & pk & _ & T' & _ & _ & _ & _ & Nc & _ & _ & _ & _
        & _ & ->).
  rewrite T in T'. injection T' as <-.
  unfold Transaction.getConversion, Transaction.getTransfers. simpl.
  destruct (b_conversion b') as [c|] eqn:Cb.
  - left. rewrite (Cv (ex_intro _ c eq_refl)). eauto.
  - right. split; [reflexivity|].
    destruct ts as [|t ts]; [now destruct Nc|].
    exists t, ts. exact T.
Qed.

(** X13: a signature seals the builder.  After [pkSignature] has
    returned, [input], [transfer], [conversion] and [metadata] all throw:
    the only calls that return are [build] and another [pkSignature], and
    the builder holds a signature after either. *)
Theorem signed_builder_is_sealed (σ σ1 σ2 : Store)
    (b b1 b2 : TransactionBuilder) (publicKey : PublicKeyArgument)
    (signature : bytes) (c : BuilderCall) :
  TransactionBuilder.pkSignature σ b publicKey signature = Return (σ1, b1) ->
  call σ1 b1 c = Return (σ2, b2) ->
  (c = CallBuild
   ∨ ∃ publicKey' signature', c = CallPkSignature publicKey' signature')
  ∧ is_Some (b_signature b2).
Proof.
  intros E C.
  assert (S : b_signature b1 = Some [signature]).
  { unfold TransactionBuilder.pkSignature in E. outcome_simpl.
    repeat step E. injection E as <- <-. reflexivity. }
  clear E.
  destruct c as [type_ fs amount_|fa amount|cv|m|publicKey' signature'|];
    simpl in C.
  - apply input_Return in C as (N & _). rewrite S in N. discriminate.
  - apply transfer_Return in C
      as (arr & old & amt & _ & _ & _ & _ & _ & _ & N & _).
    rewrite S in N. discriminate.
  - unfold TransactionBuilder.conversion in C. outcome_simpl.
    rewrite S in C. repeat step C.
  - unfold TransactionBuilder.metadata in C. rewrite S in C. discriminate.
  - split; [right; eauto|].
    unfold TransactionBuilder.pkSignature in C. outcome_simpl.
    repeat step C. injection C as <- <-. simpl. eauto.
  - split; [left; reflexivity|]. outcome_simpl.
    destruct (TransactionBuilder.build σ1 b1); [|discriminate].
    injection C as <- <-. rewrite S. eauto.
Qed.

End BuilderTransfers.

(** ** Batches: what [build] throws *)

Section Passes.
Context `{Collaborators} `{Encoder : ContentEncoder}.

Lemma transactions_Return (σ : Store) (b : TransactionBatchBuilder)
    (old txs : list (option Transaction)) :
  transaction_arrays σ !! bb_transactions b = Some old ->
  ∃ σ',
    transactions σ b txs = Return (σ', b)
    ∧ transaction_arrays σ' !! bb_transactions b = Some (old ++ txs)
    ∧ signature_arrays σ' = signature_arrays σ
    ∧ keys σ' = keys σ.
Proof.
  revert σ old. induction txs as [|tx txs IH]; intros σ old T.
  - exists σ. simpl. rewrite app_nil_r. auto.
  - destruct (IH (set_transaction_arrays σ
                    (<[bb_transactions b := old ++ [tx]]>
                       (transaction_arrays σ)))
                 (old ++ [tx])) as (σ' & Cs & T' & S' & K').
    { simpl. apply lookup_insert_eq. }
    exists σ'. simpl. unfold TransactionBatchBuilder.transaction.
    rewrite T. outcome_simpl. rewrite Cs. split; [reflexivity|].
    rewrite T', <- app_assoc. auto.
Qed.

Lemma check_transactions_malformed
    (signatures : option (list (option bytes))) (members : list Transaction)
    (rest : list (option Transaction)) (i : nat) :
  signatures = None ->
  TransactionBatchBuilder.check_transactions signatures i
    (map Some members ++ None :: rest)
  = Throw (malformed_error (i + length members)).
Proof.
  intros ->. revert i. induction members as [|t ts IH]; intros i; simpl.
  - now rewrite Nat.add_0_r.
  - outcome_simpl. rewrite IH. do 2 f_equal. lia.
Qed.

(** X14: [transaction] pushes whatever it is given, in call order, and
    never throws on a new batch builder; an [undefined] member is found
    by [build] only, which throws "Malformed transaction" followed by the
    index of the first one, without a space. *)
Theorem batch_build_malformed_member (σ0 : Store) (now : Z)
    (members : list Transaction) (rest : list (option Transaction)) :
  ∃ σ',
    transactions (TransactionBatchBuilder.constructor σ0 None).1
      (TransactionBatchBuilder.constructor σ0 None).2
      (map Some members ++ None :: rest)
    = Return (σ', (TransactionBatchBuilder.constructor σ0 None).2)
    ∧ transaction_arrays σ'
        !! bb_transactions (TransactionBatchBuilder.constructor σ0 None).2
      = Some (map Some members ++ None :: rest)
    ∧ TransactionBatchBuilder.build σ' now
        (TransactionBatchBuilder.constructor σ0 None).2
      = Throw (malformed_error (length members)).
Proof.
  destruct (transactions_Return
              (TransactionBatchBuilder.constructor σ0 None).1
              (TransactionBatchBuilder.constructor σ0 None).2
              [] (map Some members ++ None :: rest))
    as (σ' & Cs & T & _).
  { simpl. apply lookup_insert_eq. }
  exists σ'. split; [exact Cs|]. split; [exact T|].
  unfold TransactionBatchBuilder.build. rewrite T.
  outcome_simpl.
  replace (length (map Some members ++ None :: rest) =? 0)%nat with false.
  2:{ rewrite length_app. simpl. symmetry. apply Nat.eqb_neq. lia. }
  simpl.
  now rewrite (check_transactions_malformed None members rest 0 eq_refl).
Qed.

Lemma check_transactions_Return (signatures : option (list (option bytes)))
    (txs : list (option Transaction)) (i : nat) :
  TransactionBatchBuilder.check_transactions signatures i txs = Return tt ->
  ∃ members, txs = map Some members.
Proof.
  revert i. induction txs as [|tx txs IH]; intros i E.
  - now exists [].
  - simpl in E. outcome_simpl.
    destruct tx as [t|]; [|discriminate]. simpl in E.
    destruct (match signatures with
              | Some signatures0 =>
                  match
                    match mjoin (signatures0 !! i) with
                    | Some a => Return a
                    | None =>
                        Throw
                          (TypeError
                             ("Cannot read property of undefined: " +:+ "find"))
                    end
                  with
                  | Return _ => Return ()
                  | Throw e => Throw e
                  end
              | None => Return ()
              end); [|discriminate].
    destruct (IH _ E) as (members & ->). now exists (t :: members).
Qed.

Lemma collect_contents_Return (σ : Store) (members : list Transaction)
    (contents : list Content) :
  TransactionBatch.collect_contents σ (map Some members) = Return contents ->
  Forall2 (fun t content => getContent σ t = Return content) members contents.
Proof.
  revert contents.
  induction members as [|t ts IH]; intros contents C; simpl in C.
  - injection C as <-. constructor.
  - outcome_simpl.
    destruct (getContent σ t) as [c|] eqn:G; [|discriminate].
    destruct (TransactionBatch.collect_contents σ (map Some ts))
      as [cs|] eqn:Cs; [|discriminate].
    injection C as <-. constructor; [exact G|]. now apply IH.
Qed.

(** What [build] has checked, when it returns. *)
Lemma batch_build_Return (σ σ' : Store) (now : Z)
    (b : TransactionBatchBuilder) (tb : TransactionBatch) :
  TransactionBatchBuilder.build σ now b = Return (σ', tb) ->
  ∃ members,
    members ≠ []
    ∧ transaction_arrays σ !! bb_transactions b = Some (map Some members)
    ∧ (∀ sigs, bb_signatures b = Some sigs ->
         ∃ signatures,
           signature_arrays σ !! sigs = Some signatures
           ∧ length signatures = length members
           ∧ TransactionBatchBuilder.check_transactions (Some signatures) 0
               (map Some members) = Return tt)
    ∧ TransactionBatch.constructor σ now b = Return (σ', tb).
Proof.
  unfold TransactionBatchBuilder.build. outcome_simpl. intros E.
  destruct (transaction_arrays σ !! bb_transactions b) as [txs|] eqn:T;
    [|discriminate].
  destruct (length txs =? 0)%nat eqn:L; [discriminate|]. simpl in E.
  destruct (bb_signatures b) as [sigs|] eqn:S.
  - destruct (signature_arrays σ !! sigs) as [signatures|] eqn:G;
      [|discriminate].
    simpl in E.
    destruct (length signatures =? length txs)%nat eqn:Ls; [|discriminate].
    simpl in E.
    destruct (TransactionBatchBuilder.check_transactions (Some signatures) 0
                txs) as [[]|] eqn:Ck; [|discriminate].
    destruct (check_transactions_Return _ _ _ Ck) as (members & ->).
    exists members. repeat split; auto.
    + intros ->. discriminate.
    + intros sigs' Eq. injection Eq as <-. exists signatures.
      rewrite length_map in Ls. apply Nat.eqb_eq in Ls. auto.
  - destruct (TransactionBatchBuilder.check_transactions None 0 txs)
      as [[]|] eqn:Ck; [|discriminate].
    destruct (check_transactions_Return _ _ _ Ck) as (members & ->).
    exists members. repeat split; auto.
    + intros ->. discriminate.
    + intros sigs' Eq. discriminate.
Qed.

(** X20: the first pass stands on [getContent].  When the members have
    no [getContent] that returns, as with the [Transaction] class of
    2/Transaction.js, which does not define the method, [build] throws on
    every builder without signatures array: no first pass completes. *)
Theorem first_pass_needs_getContent (σ : Store) (now : Z)
    (b : TransactionBatchBuilder) :
  (∀ σ t, returns (getContent σ t) = false) ->
  bb_signatures b = None ->
  throws (TransactionBatchBuilder.build σ now b) = true.
Proof.
  intros G S.
  destruct (TransactionBatchBuilder.build σ now b) as [[σ' tb]|] eqn:B;
    [|reflexivity].
  apply batch_build_Return in B as (members & N & T & _ & E).
  unfold TransactionBatch.constructor in E. rewrite T, S in E.
  outcome_simpl.
  destruct (TransactionBatch.collect_contents σ (map Some members))
    as [contents|] eqn:C; [|discriminate].
  apply collect_contents_Return in C.
  destruct C as [|t content ts cs R F]; [congruence|].
  pose proof (G σ t) as Gt. rewrite R in Gt. discriminate.
Qed.

End Passes.

(** ** Batches: signatures given from outside *)

Section BatchSignatures.
Context `{Collaborators} `{Encoder : ContentEncoder}.

(** X21: on a batch builder that was not seeded with a batch,
    [pkSignature] records nothing, whatever [t] is bound to: it throws,
    or, when [t] is bound to something that is no transaction, returns
    without any change.  With [t] bound to a transaction it throws also
    when a member has the address, at the write into the signatures
    array that the builder does not have. *)
Theorem batch_pkSignature_needs_seeded_builder
    (global_t : option GlobalValue) (σ σ' : Store)
    (b b' : TransactionBatchBuilder) (tx : Transaction) (signature : bytes) :
  bb_signatures b = None ->
  TransactionBatchBuilder.pkSignature global_t σ b tx signature
  = Return (σ', b') ->
  global_t = Some GlobalOther ∧ σ' = σ ∧ b' = b.
Proof.
  intros S E. unfold TransactionBatchBuilder.pkSignature in E.
  destruct global_t as [[t|]|]; [| |discriminate].
  - exfalso. outcome_simpl. rewrite S in E.
    destruct (transaction_arrays σ !! bb_transactions b) as [txs|];
      [|discriminate].
    simpl in E.
    destruct (TransactionBatchBuilder.find_input σ tx 0 txs) as [[idx|]|];
      [discriminate| |discriminate].
    simpl in E. destruct (Transaction.getInput σ tx); discriminate.
  - injection E as <- <-. auto.
Qed.

End BatchSignatures.

(** ** The further properties on the concrete instance *)

Module FurtherCases.
Import Example Scenarios.

(** The first conjunct of the goal, computed and kept as [F]. *)
Ltac fact F :=
  lazymatch goal with
  | |- ?P ∧ _ =>
      assert (F : P) by (vm_compute; reflexivity); split; [exact F|]
  end.

(** [b.input("pUSD", "Fs9", 7)] on the builder of [built], after its
    [build]: the transaction reads the new input under its old key. *)
Lemma input_after_build_rewrites_input_witness :
  ∃ σ b tx σ' b',
    built = Return (σ, b, tx)
    ∧ TransactionBuilder.build σ b = Return tx
    ∧ TransactionBuilder.input σ b (Some "pUSD") "Fs9" (amount 7)
      = Return (σ', b')
    ∧ Transaction.getInput σ' tx
      = Some {| in_address := "FA9"; in_amount := BigNumber_of_Z 7;
                in_type := Some "pUSD" |}
    ∧ keys σ' !! t_key tx = keys σ !! t_key tx
    ∧ Transaction.getTransfers σ' tx = Transaction.getTransfers σ tx
    ∧ TransactionBuilder.build σ' b' ≠ Return tx.
Proof.
  eexists _, _, _, _, _.
  fact F0. fact Fb. fact Fi.
  exact (input_after_build_rewrites_input _ _ _ _ _ _ _ _ Fb Fi).
Defined.

(** [new TransactionBuilder().input("pFCT", "FA1", 150)
      .transfer("FA2", 150).metadata("memo").build()] throws. *)
Lemma public_address_input_cannot_build_witness :
  ∃ σ b σ1 b1 σ2 b2,
    TransactionBuilder.constructor empty_store NoArgument = Return (σ, b)
    ∧ TransactionBuilder.input σ b (Some "pFCT") "FA1" (amount 150)
      = Return (σ1, b1)
    ∧ calls σ1 b1 [CallTransfer "FA2" (amount 150);
                   CallMetadata (Stringifies "memo")] = Return (σ2, b2)
    ∧ throws (TransactionBuilder.build σ2 b2) = true.
Proof.
  eexists _, _, _, _, _, _.
  fact F0. fact Fi. fact Fc.
  refine (public_address_input_cannot_build _ _ _ _ _ _ _ _ _ _ _ Fi _ Fc).
  - reflexivity.
  - repeat constructor.
Defined.

(** [new TransactionBuilder().input("pFCT", "Fs1", 150)
      .transfer("FA2", 150).metadata("memo").build()]: the RCD holds the
    public key of Fs1 and [sign] uses its secret key. *)
Lemma private_address_input_signs_witness :
  ∃ σ b σ1 b1 σ2 b2 tx,
    TransactionBuilder.constructor empty_store NoArgument = Return (σ, b)
    ∧ TransactionBuilder.input σ b (Some "pFCT") "Fs1" (amount 150)
      = Return (σ1, b1)
    ∧ calls σ1 b1 [CallTransfer "FA2" (amount 150);
                   CallMetadata (Stringifies "memo")] = Return (σ2, b2)
    ∧ TransactionBuilder.build σ2 b2 = Return tx
    ∧ Transaction.getRCD tx = Some (x01 :: key_of "1")
    ∧ Transaction.sign σ2 tx [x00]
      = Return (Some (key_of "1" ++ x00 :: replicate 31 x00))
    ∧ in_address <$> Transaction.getInput σ2 tx = Some "FA1".
Proof.
  eexists _, _, _, _, _, _, _.
  fact F0. fact Fi. fact Fc. fact Fb.
  refine (private_address_input_signs _ _ _ _ _ _ _ _ _ _ _ [x00]
            _ Fi _ Fc Fb).
  - reflexivity.
  - repeat constructor.
Defined.

(** The transaction built from [externally_signed]. *)
Lemma externally_signed_transaction_witness :
  ∃ σ b σ1 b1 tx,
    ('(σ, b) ← with_public_input;
     TransactionBuilder.transfer σ b "FA2" (amount 150)) = Return (σ, b)
    ∧ TransactionBuilder.pkSignature σ b (RawKey (key_of "1"))
        (replicate 64 x00)
      = Return (σ1, b1)
    ∧ TransactionBuilder.build σ1 b1 = Return tx
    ∧ Transaction.getRCD tx = Some (x01 :: key_of "1")
    ∧ (∃ input,
         Transaction.getInput σ1 tx = Some input
         ∧ keyToPublicFctAddress (key_of "1") = Return (in_address input))
    ∧ length (replicate 64 x00) = 64
    ∧ t_signature tx = None.
Proof.
  eexists _, _, _, _, _.
  fact F0. fact Fp. fact Fb.
  exact (externally_signed_transaction _ _ _ _ _ _ _ Fp Fb).
Defined.

(** The transaction of [built] signs a hash of 64 bytes and validates the
    signature. *)
Lemma sign_then_validate_witness :
  ∃ σ b tx,
    built = Return (σ, b, tx)
    ∧ TransactionBuilder.build σ b = Return tx
    ∧ Transaction.sign σ tx (replicate 64 x00)
      = Return (Some (detached (replicate 64 x00)
                        (key_of "1" ++ key_of "1")))
    ∧ Transaction.validateSignature tx (replicate 64 x00)
        (Some (detached (replicate 64 x00) (key_of "1" ++ key_of "1")))
      = Return true.
Proof.
  eexists _, _, _.
  fact F0. fact Fb.
  refine (sign_then_validate _ _ _
            {| k_pubaddr := None; k_publicKey := Some (key_of "1");
               k_secretKey := Some (key_of "1" ++ key_of "1") |}
            (key_of "1") (key_of "1" ++ key_of "1") (replicate 64 x00)
            _ Fb _ _ _ _).
  - reflexivity.
  - vm_compute; reflexivity.
  - reflexivity.
  - reflexivity.
  - vm_compute; reflexivity.
Defined.

(** [...input("pFCT", "Fs1", 150).transfer("FA2", 100).transfer("FA3")]:
    two transfers, the second of amount 0. *)
Lemma transfers_accumulate_witness :
  ∃ σ b,
    with_input = Return (σ, b)
    ∧ ∃ σ',
        calls σ b [CallTransfer "FA2" (amount 100); CallTransfer "FA3" None]
        = Return (σ', b)
        ∧ transfers_of σ' b
          = Some [{| tr_address := "FA2"; tr_amount := BigNumber_of_Z 100 |};
                  {| tr_address := "FA3"; tr_amount := BigNumber_of_Z 0 |}]
        ∧ inputs σ' = inputs σ
        ∧ keys σ' = keys σ.
Proof.
  eexists _, _.
  fact F0.
  refine (transfers_accumulate _ _ []
            [("FA2", amount 100); ("FA3", None)] _ _ _ _).
  - vm_compute; reflexivity.
  - vm_compute; reflexivity.
  - vm_compute; reflexivity.
  - repeat constructor.
Defined.

(** The transaction of [converted] seeds a builder that throws on
    [build], here after [metadata("memo")]. *)
Lemma conversion_transaction_cannot_be_rebuilt_witness :
  ∃ σ b tx σ' b',
    converted = Return (σ, b, tx)
    ∧ TransactionBuilder.build σ b = Return tx
    ∧ ('(σ0, b0) ← TransactionBuilder.constructor σ (FromTransaction tx);
       calls σ0 b0 [CallMetadata (Stringifies "memo")]) = Return (σ', b')
    ∧ is_Some (Transaction.getConversion tx)
    ∧ throws (TransactionBuilder.build σ' b') = true.
Proof.
  eexists _, _, _, _, _.
  fact F0. fact Fb. fact Fc.
  refine (conversion_transaction_cannot_be_rebuilt _ _ _ _ _ _ _
            [CallMetadata (Stringifies "memo")] Fb _ _ _).
  - vm_compute; reflexivity.
  - reflexivity.
  - exact Fc.
Defined.

(** The transaction of [built] seeds a builder that builds it again. *)
Lemma built_transaction_seeds_unsigned_builder_witness :
  ∃ σ b tx,
    built = Return (σ, b, tx)
    ∧ TransactionBuilder.build σ b = Return tx
    ∧ ∃ b0,
        TransactionBuilder.constructor σ (FromTransaction tx) = Return (σ, b0)
        ∧ b_signature b0 = None
        ∧ b_timestamp b0 = None
        ∧ (is_Some (Transaction.getTransfers σ tx) ->
           TransactionBuilder.build σ b0 = Return tx).
Proof.
  eexists _, _, _.
  fact F0. fact Fb.
  exact (built_transaction_seeds_unsigned_builder _ _ _ Fb).
Defined.

(** [new TransactionBuilder().input("pFCT", "Fs1", 150)
      .transfer("FA2", 150).build()] has transfers and no conversion. *)
Lemma built_with_conversion_or_transfers_witness :
  ∃ σ0 b0 σ' b' tx,
    TransactionBuilder.constructor empty_store NoArgument = Return (σ0, b0)
    ∧ calls σ0 b0 [CallInput (Some "pFCT") "Fs1" (amount 150);
                   CallTransfer "FA2" (amount 150)] = Return (σ', b')
    ∧ TransactionBuilder.build σ' b' = Return tx
    ∧ ((is_Some (Transaction.getConversion tx)
        ∧ Transaction.getTransfers σ' tx = None)
       ∨ (Transaction.getConversion tx = None
          ∧ ∃ t ts, Transaction.getTransfers σ' tx = Some (t :: ts))).
Proof.
  eexists _, _, _, _, _.
  fact F0. fact Fc. fact Fb.
  exact (built_with_conversion_or_transfers _ _ _ _ _ _ _ F0 Fc Fb).
Defined.

(** [pkSignature] on [externally_signed], and then [build]. *)
Lemma signed_builder_is_sealed_witness :
  ∃ σ b σ1 b1,
    ('(σ, b) ← with_public_input;
     TransactionBuilder.transfer σ b "FA2" (amount 150)) = Return (σ, b)
    ∧ TransactionBuilder.pkSignature σ b (RawKey (key_of "1"))
        (replicate 64 x00)
      = Return (σ1, b1)
    ∧ call σ1 b1 CallBuild = Return (σ1, b1)
    ∧ (CallBuild = CallBuild
       ∨ ∃ publicKey' signature',
           CallBuild = CallPkSignature publicKey' signature')
    ∧ is_Some (b_signature b1).
Proof.
  eexists _, _, _, _.
  fact F0. fact Fp. fact Fc.
  exact (signed_builder_is_sealed _ _ _ _ _ _ _ _ _ Fp Fc).
Defined.

(** The builder of [batch_builder]: its member is an instance of the
    [Transaction] class, which has no [getContent]. *)
Lemma first_pass_needs_getContent_witness :
  ∃ σ b,
    batch_builder = Return (σ, b)
    ∧ throws (TransactionBatchBuilder.build σ 1572652800499 b) = true.
Proof.
  eexists _, _.
  fact F0.
  refine (first_pass_needs_getContent _ _ _ _ _).
  - reflexivity.
  - reflexivity.
Defined.

(** [bb.pkSignature(tx, <64 bytes>)] on the builder of
    [external_batch_builder], with [t] bound to a number. *)
Lemma batch_pkSignature_needs_seeded_builder_witness :
  ∃ σ b,
    external_batch_builder = Return (σ, b)
    ∧ TransactionBatchBuilder.pkSignature (Some GlobalOther) σ b
        external_transaction (replicate 64 x00) = Return (σ, b)
    ∧ Some GlobalOther = Some GlobalOther ∧ σ = σ ∧ b = b.
Proof.
  eexists _, _.
  fact F0. fact Fp.
  refine (batch_pkSignature_needs_seeded_builder _ _ _ _ _ _ _ _ Fp).
  reflexivity.
Defined.

End FurtherCases.
